(** * node-paymentbot: the approval-callback correlation, in Rocq

    A shallow embedding of [app.js] and [configuration.js].  JavaScript
    strings are sequences of 16-bit code units, JavaScript objects are
    ordered property lists, and a function that logs, sends or throws is a
    computation that returns the events it emitted together with its
    completion (a value, or the exception it threw).  The callbacks handed
    to the PayPal SDK are defunctionalised: the event that registers one
    carries the variables it closes over, and a second definition gives the
    body that runs when the SDK answers. *)

From Stdlib Require Import List NArith ZArith Lia Bool String Ascii DecimalString.
Import ListNotations.
Local Open Scope N_scope.

Ltac Zify.zify_post_hook ::= Z.to_euclidean_division_equations.

#[local] Set Warnings "-register-all".

(** ** Strings *)

(** A JavaScript string: a list of UTF-16 code units. *)
Definition jsstring := list N.

(** A string literal of the source, as code units. *)
Definition lit (s : string) : jsstring :=
  List.map N_of_ascii (list_ascii_of_string s).

Fixpoint str_eqb (a b : jsstring) : bool :=
  match a, b with
  | [], [] => true
  | x :: a', y :: b' => (x =? y) && str_eqb a' b'
  | _, _ => false
  end.

(** What a JavaScript function can throw here. *)
Inductive exn (V : Type) :=
| URIError
| TypeError
| Thrown (v : V).
Arguments URIError {V}.
Arguments TypeError {V}.
Arguments Thrown {V} v.

(** ** The URI functions of the language

    [encodeURIComponent] and [decodeURIComponent] are the built-ins of
    ECMAScript (sections Encode and Decode of the URI handling functions);
    they are modelled here step by step, since the round trip of the
    service URL rests on them. *)
Module URI.

Definition PERCENT : N := 37.

Definition in_range (lo hi c : N) : bool := (lo <=? c) && (c <=? hi).

(** uriUnescaped: letters, digits and  - _ . ! ~ * ' ( ) *)
Definition uriUnescaped (c : N) : bool :=
  in_range 65 90 c || in_range 97 122 c || in_range 48 57 c
  || (c =? 45) || (c =? 95) || (c =? 46) || (c =? 33) || (c =? 126)
  || (c =? 42) || (c =? 39) || (c =? 40) || (c =? 41).

(** An upper-case hexadecimal digit. *)
Definition hexdigit (d : N) : N := if d <? 10 then 48 + d else 55 + d.

Definition hexval (c : N) : option N :=
  if in_range 48 57 c then Some (c - 48)
  else if in_range 65 70 c then Some (c - 55)
  else if in_range 97 102 c then Some (c - 87)
  else None.

(** "%XX" for one octet. *)
Definition percent (b : N) : jsstring :=
  [PERCENT; hexdigit (b / 16); hexdigit (b mod 16)].

(** The UTF-8 transformation of a code point. *)
Definition utf8 (V : N) : list N :=
  if V <? 128 then [V]
  else if V <? 2048 then [192 + V / 64; 128 + V mod 64]
  else if V <? 65536 then
    [224 + V / 4096; 128 + (V / 64) mod 64; 128 + V mod 64]
  else
    [240 + V / 262144; 128 + (V / 4096) mod 64;
     128 + (V / 64) mod 64; 128 + V mod 64].

Definition is_high_surrogate (c : N) : bool := in_range 55296 56319 c.
Definition is_low_surrogate (c : N) : bool := in_range 56320 57343 c.

Definition escape_point (V : N) : jsstring := flat_map percent (utf8 V).

(** Encode(string, uriUnescaped). *)
Fixpoint Encode (s : jsstring) : option jsstring :=
  match s with
  | [] => Some []
  | c :: rest =>
    if uriUnescaped c then option_map (cons c) (Encode rest)
    else if is_low_surrogate c then None
    else if negb (is_high_surrogate c) then
      option_map (app (escape_point c)) (Encode rest)
    else
      match rest with
      | [] => None
      | d :: rest' =>
        if negb (is_low_surrogate d) then None
        else
          let V := (c - 55296) * 1024 + (d - 56320) + 65536 in
          option_map (app (escape_point V)) (Encode rest')
      end
  end.

(** Reads [n] further "%XX" groups, each a continuation octet 10xxxxxx. *)
Fixpoint continuation (n : nat) (s : jsstring)
  : option (list N * jsstring) :=
  match n with
  | O => Some ([], s)
  | S n' =>
    match s with
    | p :: h1 :: h2 :: rest =>
      if negb (p =? PERCENT) then None
      else
        match hexval h1, hexval h2 with
        | Some a, Some b =>
          let B := 16 * a + b in
          if negb (in_range 128 191 B) then None
          else
            match continuation n' rest with
            | Some (os, rest') => Some (B :: os, rest')
            | None => None
            end
        | _, _ => None
        end
    | _ => None
    end
  end.

(** The code point of a lead octet and its continuation octets, when they
    are a valid UTF-8 encoding (shortest form, no surrogate, at most
    U+10FFFF). *)
Definition utf8_point (B : N) (os : list N) : option N :=
  match os with
  | [c1] =>
    let V := (B - 192) * 64 + (c1 - 128) in
    if 128 <=? V then Some V else None
  | [c1; c2] =>
    let V := (B - 224) * 4096 + (c1 - 128) * 64 + (c2 - 128) in
    if (2048 <=? V) && negb (in_range 55296 57343 V) then Some V else None
  | [c1; c2; c3] =>
    let V := (B - 240) * 262144 + (c1 - 128) * 4096
             + (c2 - 128) * 64 + (c3 - 128) in
    if (65536 <=? V) && (V <=? 1114111) then Some V else None
  | _ => None
  end.

(** The UTF-16 encoding of a code point. *)
Definition utf16 (V : N) : jsstring :=
  if V <? 65536 then [V]
  else [(V - 65536) / 1024 mod 1024 + 55296; (V - 65536) mod 1024 + 56320].

(** The number of octets announced by a lead octet (its leading 1 bits). *)
Definition lead_count (B : N) : nat :=
  if B <? 128 then 0
  else if B <? 192 then 1
  else if B <? 224 then 2
  else if B <? 240 then 3
  else if B <? 248 then 4
  else 5.

(** Decode(string, the empty reserved set).  One unit of fuel is spent on
    each character or escape sequence met. *)
Fixpoint Decode_fuel (fuel : nat) (s : jsstring) : option jsstring :=
  match s with
  | [] => Some []
  | c :: rest =>
    match fuel with
    | O => None
    | S fuel' =>
      if negb (c =? PERCENT) then option_map (cons c) (Decode_fuel fuel' rest)
      else
        match rest with
        | h1 :: h2 :: rest2 =>
          match hexval h1, hexval h2 with
          | Some a, Some b =>
            let B := 16 * a + b in
            match lead_count B with
            | O => option_map (cons B) (Decode_fuel fuel' rest2)
            | 1%nat => None
            | S n =>
              if (3 <? n)%nat then None
              else
                match continuation n rest2 with
                | Some (os, rest3) =>
                  match utf8_point B os with
                  | Some V => option_map (app (utf16 V)) (Decode_fuel fuel' rest3)
                  | None => None
                  end
                | None => None
                end
            end
          | _, _ => None
          end
        | _ => None
        end
    end
  end.

Definition Decode (s : jsstring) : option jsstring :=
  Decode_fuel (List.length s) s.

(** The characters [Encode] can produce. *)
Definition escaped_char (c : N) : bool := uriUnescaped c || (c =? PERCENT).

(** A string of 16-bit code units in which every surrogate is paired: the
    strings [Encode] accepts. *)
Fixpoint well_formed (s : jsstring) : bool :=
  match s with
  | [] => true
  | c :: rest =>
    if is_low_surrogate c then false
    else if is_high_surrogate c then
      match rest with
      | d :: rest' => is_low_surrogate d && well_formed rest'
      | [] => false
      end
    else (c <? 65536) && well_formed rest
  end.

End URI.

(** ** Values *)

(** JavaScript values, as far as this program handles them.  An object is
    the ordered list of its own properties, and it is an ordinary object:
    the prototype-less objects that the query parser builds for keys
    written with dots or brackets, whose conversion to a string throws a
    TypeError, are not among these values. *)
Inductive value :=
| Undefined
| Null
| Str (s : jsstring)
| Num (n : N)
| Bool (b : bool)
| Arr (items : list value)
| Obj (props : list (jsstring * value)).

Definition object := list (jsstring * value).

Fixpoint lookup {A} (k : jsstring) (o : list (jsstring * A)) : option A :=
  match o with
  | [] => None
  | (k', v) :: o' => if str_eqb k k' then Some v else lookup k o'
  end.

(** [o.k] on a plain object: an absent property reads as [undefined]. *)
Definition get (k : string) (o : object) : value :=
  match lookup (lit k) o with
  | Some v => v
  | None => Undefined
  end.

(** [v.k] on any value: [undefined.k] and [null.k] throw a TypeError (no
    result here); the properties of strings, numbers and arrays, such as
    [length], are not among those the program reads. *)
Definition prop (k : string) (v : value) : option value :=
  match v with
  | Obj o => Some (get k o)
  | Undefined | Null => None
  | _ => Some Undefined
  end.

(** [a[i]] on an array. *)
Definition index (i : nat) (v : value) : option value :=
  match v with
  | Arr l => Some (nth i l Undefined)
  | Undefined | Null => None
  | _ => Some Undefined
  end.

Definition num_to_string (n : N) : jsstring :=
  lit (DecimalString.NilZero.string_of_uint (N.to_uint n)).

Fixpoint join (sep : jsstring) (l : list jsstring) : jsstring :=
  match l with
  | [] => []
  | [x] => x
  | x :: l' => x ++ sep ++ join sep l'
  end.

(** ToString. *)
Fixpoint ToString (v : value) : jsstring :=
  match v with
  | Undefined => lit "undefined"
  | Null => lit "null"
  | Str s => s
  | Num n => num_to_string n
  | Bool true => lit "true"
  | Bool false => lit "false"
  | Arr l =>
    join (lit ",")
      (List.map (fun x => match x with
                          | Undefined | Null => []
                          | _ => ToString x
                          end) l)
  | Obj _ => lit "[object Object]"
  end.

(** ToBoolean, as used by [||] and [if (x)]. *)
Definition truthy (v : value) : bool :=
  match v with
  | Undefined | Null => false
  | Str [] => false
  | Num 0 => false
  | Bool b => b
  | _ => true
  end.

(** [a || b] *)
Definition or_else (a b : value) : value := if truthy a then a else b.

(** Structural equality of two values (same shape, same leaves, properties
    in the same order). *)
Fixpoint deep_equal (a b : value) : bool :=
  match a, b with
  | Undefined, Undefined => true
  | Null, Null => true
  | Str s, Str t => str_eqb s t
  | Num n, Num m => n =? m
  | Bool x, Bool y => Bool.eqb x y
  | Arr l, Arr m =>
    (fix all2 (l m : list value) : bool :=
       match l, m with
       | [], [] => true
       | x :: l', y :: m' => deep_equal x y && all2 l' m'
       | _, _ => false
       end) l m
  | Obj o, Obj p =>
    (fix all2 (o p : list (jsstring * value)) : bool :=
       match o, p with
       | [], [] => true
       | (k, x) :: o', (j, y) :: p' =>
         str_eqb k j && deep_equal x y && all2 o' p'
       | _, _ => false
       end) o p
  | _, _ => false
  end.

(** ** Computations

    A run of a function of the program: the events it emitted, in order,
    and how it completed. *)
Definition error := exn value.

Inductive completion (A : Type) :=
| Return (a : A)
| Throw (e : error).
Arguments Return {A} a.
Arguments Throw {A} e.

(** What [executePayment]'s callback closes over (app.js:177-181). *)
Record execute_env := {
  env_botServiceUrl : jsstring;
  env_channelId : value;
  env_addressId : value;
  env_conversationId : value;
  env_userId : value
}.

(** The address of an incoming message, as the connector hands it over:
    [id], [channelId], [user.id], [conversation.id], [serviceUrl]. *)
Record address := {
  id : jsstring;
  channelId : jsstring;
  user_id : jsstring;
  conversation_id : jsstring;
  serviceUrl : jsstring
}.

(** [session]: the program reads [session.message.address] only. *)
Record session := { message_address : address }.

(** What the message builder is given: [.address(a).text(t)]. *)
Record message := { msg_address : value; msg_text : jsstring }.

Inductive event :=
| ConsoleLog (args : list value)
| SessionSend (text : jsstring)
| PromptsChoice (prompt : jsstring) (choices : list jsstring)
| BeginDialog (name : jsstring)
| PaypalCreate (paymentJson : value) (s : session)
| PaypalExecute (paymentId paymentJson : value) (env : execute_env)
| BotSend (m : message)
| ResSend (code : N).

Definition M (A : Type) : Type := (list event * completion A)%type.

Definition ret {A} (a : A) : M A := ([], Return a).

Definition bind {A B} (m : M A) (f : A -> M B) : M B :=
  match m with
  | (evs, Return a) => let (evs', r) := f a in (evs ++ evs', r)
  | (evs, Throw e) => (evs, Throw e)
  end.

Definition emit (e : event) : M unit := ([e], Return tt).
Definition throw {A} (e : error) : M A := ([], Throw e).

Notation "x <- m ;; k" := (bind m (fun x => k))
  (at level 61, m at next level, right associativity).
Notation "m ;; k" := (bind m (fun _ => k))
  (at level 61, right associativity).

Definition console_log (s : string) : M unit := emit (ConsoleLog [Str (lit s)]).

(** A built-in that throws a URIError where its model has no result. *)
Definition or_URIError (r : option jsstring) : M jsstring :=
  match r with
  | Some s => ret s
  | None => throw URIError
  end.

Definition encodeURIComponent (v : value) : M jsstring :=
  or_URIError (URI.Encode (ToString v)).

Definition decodeURIComponent (v : value) : M jsstring :=
  or_URIError (URI.Decode (ToString v)).

(** ** The platform: [querystring], [url] and the server's query parser *)
Module Node.

(** [stringifyPrimitive] of [querystring]. *)
Definition stringifyPrimitive (v : value) : jsstring :=
  match v with
  | Str s => s
  | Bool true => lit "true"
  | Bool false => lit "false"
  | Num n => num_to_string n
  | _ => []
  end.

(** [querystring.escape], the routine of Node 6 and later.  It leaves the
    characters [encodeURIComponent] leaves and writes the others as the
    "%XX" of their UTF-8 octets, but it does not check surrogates: a code
    unit from D800 to DFFF, high or low, is taken as the first half of a
    pair and whatever unit follows as the second half ([c2 = next & 0x3FF]),
    and the URIError comes only when nothing follows.  On 16-bit code units
    the bit operations of the routine are the sums written here. *)
Fixpoint escape (s : jsstring) : option jsstring :=
  match s with
  | [] => Some []
  | c :: rest =>
    if c <? 128 then
      option_map (app (if URI.uriUnescaped c then [c] else URI.percent c))
        (escape rest)
    else if c <? 2048 then
      option_map
        (app (flat_map URI.percent [192 + c / 64; 128 + c mod 64]))
        (escape rest)
    else if (c <? 55296) || (57344 <=? c) then
      option_map
        (app (flat_map URI.percent
                [224 + c / 4096; 128 + (c / 64) mod 64; 128 + c mod 64]))
        (escape rest)
    else
      match rest with
      | [] => None
      | d :: rest' =>
        let c2 := d mod 1024 in
        let V := 65536 + ((c mod 1024) * 1024 + c2) in
        option_map
          (app (flat_map URI.percent
                  [240 + V / 262144; 128 + (V / 4096) mod 64;
                   128 + (V / 64) mod 64; 128 + V mod 64]))
          (escape rest')
      end
  end.

Definition opt_bind {A B} (o : option A) (f : A -> option B) : option B :=
  match o with
  | Some a => f a
  | None => None
  end.

Fixpoint escape_all (l : list value) : option (list jsstring) :=
  match l with
  | [] => Some []
  | v :: l' =>
    opt_bind (escape (stringifyPrimitive v)) (fun e =>
    opt_bind (escape_all l') (fun es => Some (e :: es)))
  end.

(** [querystring.stringify(obj)] with the default separators: a field
    [k=v] per property, one per element for an array, joined with [&]. *)
Fixpoint stringify (obj : object) : option jsstring :=
  match obj with
  | [] => Some []
  | (k, v) :: obj' =>
    opt_bind (escape k) (fun ek =>
    let ks := ek ++ lit "=" in
    opt_bind
      (match v with
       | Arr l => option_map (fun es => join (lit "&") (List.map (app ks) es))
                             (escape_all l)
       | _ => option_map (app ks) (escape (stringifyPrimitive v))
       end) (fun field =>
    let sep :=
      match obj', v with
      | [], _ => []
      | _, Arr [] => []
      | _, _ => lit "&"
      end in
    opt_bind (stringify obj') (fun fields => Some (field ++ sep ++ fields))))
  end.

(** The argument of [url.format], with the fields this program sets. *)
Record urlObject := {
  protocol : jsstring;
  hostname : jsstring;
  port : value;
  pathname : jsstring;
  query : object
}.

Definition slashedProtocol (p : jsstring) : bool :=
  existsb (fun q => str_eqb p (lit q))
    ["http"; "https"; "ftp"; "gopher"; "file";
     "http:"; "https:"; "ftp:"; "gopher:"; "file:"]%string.

Definition nonempty (s : jsstring) : bool :=
  match s with [] => false | _ => true end.

Definition contains (c : N) (s : jsstring) : bool := existsb (N.eqb c) s.

(** [s.replace('#', '%23')]: the first occurrence only. *)
Fixpoint replace_first_hash (s : jsstring) : jsstring :=
  match s with
  | [] => []
  | c :: s' => if c =? 35 then lit "%23" ++ s' else c :: replace_first_hash s'
  end.

(** [pathname.replace(/[?#]/g, encodeURIComponent)] *)
Definition escape_path (s : jsstring) : jsstring :=
  flat_map (fun c => if c =? 63 then lit "%3F"
                     else if c =? 35 then lit "%23" else [c]) s.

(** [url.format(urlObject)] for an object with no [auth], [host], [search],
    [hash] or [slashes]. *)
Definition url_format (u : urlObject) : option jsstring :=
  let host :=
    if nonempty (hostname u) then
      Some ((if contains 58 (hostname u)
             then lit "[" ++ hostname u ++ lit "]" else hostname u)
            ++ (if truthy (port u) then lit ":" ++ ToString (port u) else []))
    else None in
  opt_bind (stringify (query u)) (fun query =>
  let search := if nonempty query then lit "?" ++ query else [] in
  let protocol :=
    if nonempty (protocol u) && negb (last (protocol u) 0 =? 58)
    then protocol u ++ lit ":" else protocol u in
  let slashes :=
    (negb (nonempty protocol) || slashedProtocol protocol)
    && match host with Some _ => true | None => false end in
  let host' :=
    if slashes then lit "//" ++ match host with Some h => h | None => [] end
    else match host with Some h => h | None => [] end in
  let pathname :=
    if slashes && nonempty (pathname u) && negb (hd 0 (pathname u) =? 47)
    then lit "/" ++ pathname u else pathname u in
  Some (protocol ++ host' ++ escape_path pathname ++ replace_first_hash search)).

(** The characters [url.parse] escapes in what follows the host: braces,
    bar, backslash, caret, backquote, angle brackets, double quote, white
    space, and the single quote (as "%27"). *)
Definition autoEscape (c : N) : jsstring :=
  if existsb (N.eqb c) [123; 125; 124; 92; 94; 96; 60; 62; 34; 32; 13; 10; 9; 39]
  then URI.percent c else [c].

Fixpoint before (c : N) (s : jsstring) : jsstring :=
  match s with
  | [] => []
  | x :: s' => if x =? c then [] else x :: before c s'
  end.

(** What follows the first [c]; nothing when there is none. *)
Fixpoint after (c : N) (s : jsstring) : jsstring :=
  match s with
  | [] => []
  | x :: s' => if x =? c then s' else after c s'
  end.

(** [url.parse(u).query || ''], which is the server's [req.getQuery()]: the
    hash is cut off first, the query starts after the first [?].
    [url.parse] has two paths: the general one escapes the characters of
    [autoEscape], the short one for a plain "/path?query" does not;
    [escaping] tells which one is taken. *)
Definition escaped_rest (escaping : bool) (u : jsstring) : jsstring :=
  if escaping then flat_map autoEscape u else u.

Definition getQuery (escaping : bool) (u : jsstring) : jsstring :=
  after 63 (before 35 (escaped_rest escaping u)).

(** [str.split(c)] *)
Fixpoint split (c : N) (s : jsstring) : list jsstring :=
  match s with
  | [] => [[]]
  | x :: s' =>
    if x =? c then [] :: split c s'
    else match split c s' with
         | p :: ps => (x :: p) :: ps
         | [] => [[x]]
         end
  end.

(** The decoder of [qs]: [+] is a space, and a string that does not decode
    is kept as it is. *)
Definition qs_decode (s : jsstring) : jsstring :=
  match URI.Decode (List.map (fun c => if c =? 43 then 32 else c) s) with
  | Some r => r
  | None => s
  end.

(** Where the key of a part ends: at the [=] of the first "]=", else at
    the first [=]. *)
Fixpoint index_bracket_eq (s : jsstring) : option nat :=
  match s with
  | a :: ((b :: _) as s') =>
    if (a =? 93) && (b =? 61) then Some 1%nat
    else option_map S (index_bracket_eq s')
  | _ => None
  end.

Fixpoint index_eq (s : jsstring) : option nat :=
  match s with
  | [] => None
  | a :: s' => if a =? 61 then Some 0%nat else option_map S (index_eq s')
  end.

Definition parse_part (part : jsstring) : jsstring * jsstring :=
  let pos :=
    match index_bracket_eq part with
    | Some p => Some p
    | None => index_eq part
    end in
  match pos with
  | None => (qs_decode part, [])
  | Some p => (qs_decode (firstn p part), qs_decode (skipn (S p) part))
  end.

(** [obj[key] = val], or the array of all the values when the key comes
    more than once. *)
Fixpoint add_param (k v : jsstring) (o : object) : object :=
  match o with
  | [] => [(k, Str v)]
  | (k', x) :: o' =>
    if str_eqb k k' then
      (k', match x with
           | Arr l => Arr (l ++ [Str v])
           | _ => Arr [x; Str v]
           end) :: o'
    else (k', x) :: add_param k v o'
  end.

Definition parameterLimit : nat := 1000.

(** [qs.parse(str)] on flat keys.  The parser turns a key written with
    dots or brackets into nested prototype-less objects and arrays, and
    drops a key named like a property of [Object.prototype]; such keys are
    outside this model, which reads every key as a flat name.  Parts with
    an empty key are dropped. *)
Definition qs_parse (str : jsstring) : object :=
  fold_left
    (fun o part =>
       let (k, v) := parse_part part in
       if nonempty k then add_param k v o else o)
    (firstn parameterLimit (split 38 str)) [].

(** The [queryParser] plugin: it fills [req.params] from the query of the
    request URL; a request without a query has no parameters. *)
Definition queryParser (escaping : bool) (url : jsstring) : object :=
  if nonempty (getQuery escaping url) then qs_parse (getQuery escaping url)
  else [].

End Node.

(** ** configuration.js *)

Record Configuration := {
  HOST : value;
  PORT : value;
  PAYPAL_CLIENT_MODE : value;
  PAYPAL_CLIENT_ID : value;
  PAYPAL_CLIENT_SECRET : value
}.

(** [module.exports] of configuration.js, from [process.env]. *)
Definition load_configuration (env : object) : Configuration :=
  {| HOST := or_else (get "HOST" env) (Str (lit "localhost"));
     PORT := or_else (get "PORT" env) (or_else (get "port" env) (Num 3978));
     PAYPAL_CLIENT_MODE := get "PAYPAL_CLIENT_MODE" env;
     PAYPAL_CLIENT_ID := get "PAYPAL_CLIENT_ID" env;
     PAYPAL_CLIENT_SECRET := get "PAYPAL_CLIENT_SECRET" env |}.

(** ** app.js *)

(** A link of the provider's create response. *)
Record link := { rel : jsstring; href : jsstring }.

(** The provider's create response: [payment.links]. *)
Record created_payment := { links : list link }.

(** [results.response.entity] of the choice prompt. *)
Record choice := { entity : jsstring }.
Record results := { response : choice }.

(** [req.params] *)
Record request := { params : object }.

(** app.js:58 *)
Definition createPaymentJson (returnUrl cancelUrl : value) : value :=
  Obj [
    (lit "intent", Str (lit "sale"));
    (lit "payer", Obj [
      (lit "payment_method", Str (lit "paypal"))
    ]);
    (lit "redirect_urls", Obj [
      (lit "return_url", returnUrl);
      (lit "cancel_url", cancelUrl)
    ]);
    (lit "transactions", Arr [Obj [
      (lit "item_list", Obj [
        (lit "items", Arr [Obj [
          (lit "name", Str (lit "Fine"));
          (lit "sku", Str (lit "ParkingFine"));
          (lit "price", Str (lit "1.00"));
          (lit "currency", Str (lit "USD"));
          (lit "quantity", Num 1)
        ]])
      ]);
      (lit "amount", Obj [
        (lit "currency", Str (lit "USD"));
        (lit "total", Str (lit "1.00"))
      ]);
      (lit "description", Str (lit "This is your fine. Please pay it :3"))
    ]])
  ].

(** app.js:93 *)
Definition executePaymentJson (payerId : value) : value :=
  Obj [
    (lit "payer_id", payerId);
    (lit "transactions", Arr [Obj [
      (lit "amount", Obj [
        (lit "currency", Str (lit "USD"));
        (lit "total", Str (lit "1.00"))
      ])
    ]])
  ].

(** The [address] literal of [respondToUser] (app.js:200). *)
Definition reply_address (channelId userId conversationId : value)
    (botServiceUrl : jsstring) : value :=
  Obj [
    (lit "channelId", channelId);
    (lit "user", Obj [(lit "id", userId); (lit "name", userId)]);
    (lit "conversation", Obj [(lit "id", conversationId)]);
    (lit "bot", Obj [(lit "id", Str (lit "paybot"));
                     (lit "name", Str (lit "paybot"))]);
    (lit "serviceUrl", Str botServiceUrl);
    (lit "useAuth", Bool false)
  ].

Section App.

(** The module-level [configuration] of app.js. *)
Variable configuration : Configuration.

(** The [queryObject] of [createReturnUrl] (app.js:114), once the service
    URL has been escaped. *)
Definition queryObject (address : address) (botServiceUrl : jsstring)
  : object :=
  [ (lit "addressId", Str (id address));
    (lit "conversationId", Str (conversation_id address));
    (lit "userId", Str (user_id address));
    (lit "channelId", Str (channelId address));
    (lit "botServiceUrl", Str botServiceUrl) ].

(** The [urlObject] of [createReturnUrl] (app.js:125). *)
Definition urlObject (queryObject : object) : Node.urlObject :=
  {| Node.protocol := lit "http";
     Node.hostname := lit "localhost";
     Node.port := PORT configuration;
     Node.pathname := lit "approvalComplete";
     Node.query := queryObject |}.

(** app.js:108 *)
Definition createReturnUrl (address : address) : M jsstring :=
  console_log "Creating Return Url" ;;
  botServiceUrl <- encodeURIComponent (Str (serviceUrl address)) ;;
  or_URIError (Node.url_format (urlObject (queryObject address botServiceUrl))).

(** app.js:139, up to the call of the SDK. *)
Definition createAndSendPayment (session : session) : M unit :=
  console_log "Creating Payment" ;;
  returnUrl <- createReturnUrl (message_address session) ;;
  let paymentJson :=
    createPaymentJson (Str returnUrl) (Str (lit "http://localhost")) in
  emit (PaypalCreate paymentJson session).

(** The loop of app.js:154. *)
Fixpoint send_approval_links (l : list link) : M unit :=
  match l with
  | [] => ret tt
  | x :: l' =>
    (if str_eqb (rel x) (lit "approval_url")
     then emit (SessionSend (lit "Please pay your fine: " ++ href x))
     else ret tt) ;;
    send_approval_links l'
  end.

(** app.js:145, the callback given to [paypal.payment.create]. *)
Definition createAndSendPayment_callback (session : session)
    (error : value) (payment : created_payment) : M unit :=
  if truthy error then throw (Thrown error)
  else send_approval_links (links payment).

(** app.js:199 *)
Definition respondToUser (payment : value) (botServiceUrl : jsstring)
    (channelId addressId conversationId userId : value) : M unit :=
  let address := reply_address channelId userId conversationId botServiceUrl in
  let message :=
    {| msg_address := address; msg_text := lit "Thanks for your payment!" |} in
  emit (BotSend message).

(** app.js:166, up to the call of the SDK. *)
Definition executePayment (parameters : object) : M unit :=
  console_log "Executing an Approved Payment" ;;
  let paymentId := get "paymentId" parameters in
  let payerId := get "PayerID" parameters in
  let paymentJson := executePaymentJson payerId in
  let addressId := get "addressId" parameters in
  let conversationId := get "conversationId" parameters in
  let channelId := get "channelId" parameters in
  let userId := get "userId" parameters in
  botServiceUrl <- decodeURIComponent (get "botServiceUrl" parameters) ;;
  emit (PaypalExecute paymentId paymentJson
          {| env_botServiceUrl := botServiceUrl;
             env_channelId := channelId;
             env_addressId := addressId;
             env_conversationId := conversationId;
             env_userId := userId |}).

(** app.js:184, the callback given to [paypal.payment.execute]. *)
Definition executePayment_callback (env : execute_env)
    (error payment : value) : M unit :=
  if truthy error then
    match prop "response" error with
    | Some r => emit (ConsoleLog [r])
    | None => throw TypeError
    end ;;
    throw (Thrown error)
  else
    console_log "Payment Executed Successfully" ;;
    respondToUser payment (env_botServiceUrl env) (env_channelId env)
      (env_addressId env) (env_conversationId env) (env_userId env).

(** app.js:42, the handler of GET approvalComplete. *)
Definition approvalComplete (req : request) : M unit :=
  console_log "User approved transaction" ;;
  executePayment (params req) ;;
  emit (ResSend 200).

(** app.js:222, the root dialog. *)
Definition root_dialog (session : session) : M unit :=
  emit (BeginDialog (lit "listFines")).

(** app.js:229, the first step of the dialog listFines. *)
Definition listFines_1 (session : session) : M unit :=
  console_log "List Fines Dialog" ;;
  emit (SessionSend (lit "You have 1 outstanding fine:")) ;;
  emit (SessionSend (lit "Parking Fine Violation")) ;;
  emit (PromptsChoice (lit "What would you like to do?")
          [lit "Pay fine"; lit "Cancel"]).

(** app.js:236, the second step. *)
Definition listFines_2 (session : session) (results : results) : M unit :=
  let choice := response results in
  if str_eqb (entity choice) (lit "Cancel") then ret tt
  else createAndSendPayment session.

(** *** The provider's answers

    What the SDK passes to the two callbacks, [(error, payment)], for a
    given request. *)
Record provider := {
  create_answer : value -> value * created_payment;
  execute_answer : value -> value -> value * value
}.

(** The callback an event registers, run on the provider's answer. *)
Definition callback (p : provider) (e : event) : M unit :=
  match e with
  | PaypalCreate paymentJson session =>
    let (error, payment) := create_answer p paymentJson in
    createAndSendPayment_callback session error payment
  | PaypalExecute paymentId paymentJson env =>
    let (error, payment) := execute_answer p paymentId paymentJson in
    executePayment_callback env error payment
  | _ => ret tt
  end.

(** Everything a run leads to: its own events, then those of the callbacks
    it registered, each run once the provider has answered. *)
Definition timeline {A} (p : provider) (m : M A) : list event :=
  fst m ++ flat_map (fun e => fst (callback p e)) (fst m).

(** The exceptions nobody catches: the one that ended the run, and those
    thrown inside callbacks. *)
Definition thrown {A} (m : M A) : list error :=
  match snd m with
  | Throw e => [e]
  | Return _ => []
  end.

Definition uncaught {A} (p : provider) (m : M A) : list error :=
  thrown m ++ flat_map (fun e => thrown (callback p e)) (fst m).

End App.

(** *** Observations on a list of events *)

Definition bot_sends (evs : list event) : list message :=
  flat_map (fun e => match e with BotSend m => [m] | _ => [] end) evs.

Definition session_sends (evs : list event) : list jsstring :=
  flat_map (fun e => match e with SessionSend t => [t] | _ => [] end) evs.

Definition res_sends (evs : list event) : list N :=
  flat_map (fun e => match e with ResSend c => [c] | _ => [] end) evs.

Definition provider_calls (evs : list event) : list event :=
  filter (fun e => match e with
                   | PaypalCreate _ _ | PaypalExecute _ _ _ => true
                   | _ => false
                   end) evs.

(** ** Predicates and readings used in the statements *)

(** An address whose five strings are well-formed: the addresses
    [createReturnUrl] can encode. *)
Definition valid_address (a : address) : bool :=
  URI.well_formed (id a) && URI.well_formed (conversation_id a)
  && URI.well_formed (user_id a) && URI.well_formed (channelId a)
  && URI.well_formed (serviceUrl a).

(** A port written with decimal digits only, as 3978 or "8080". *)
Definition decimal_port (v : value) : bool :=
  forallb (URI.in_range 48 57) (ToString v).

(** The same configuration with another [HOST]. *)
Definition with_HOST (h : value) (c : Configuration) : Configuration :=
  {| HOST := h;
     PORT := PORT c;
     PAYPAL_CLIENT_MODE := PAYPAL_CLIENT_MODE c;
     PAYPAL_CLIENT_ID := PAYPAL_CLIENT_ID c;
     PAYPAL_CLIENT_SECRET := PAYPAL_CLIENT_SECRET c |}.

(** A parameter the callback does not carry. *)
Definition absent (k : string) (o : object) : bool :=
  match lookup (lit k) o with
  | Some _ => false
  | None => true
  end.

Definition is_approval (l : link) : bool := str_eqb (rel l) (lit "approval_url").

(** [json.transactions[0].amount.total] *)
Definition transaction_total (json : value) : option value :=
  Node.opt_bind (prop "transactions" json) (fun ts =>
  Node.opt_bind (index 0 ts) (fun t =>
  Node.opt_bind (prop "amount" t) (fun amount =>
  prop "total" amount))).

(** [json.transactions[0].item_list.items] *)
Definition transaction_items (json : value) : option value :=
  Node.opt_bind (prop "transactions" json) (fun ts =>
  Node.opt_bind (index 0 ts) (fun t =>
  Node.opt_bind (prop "item_list" t) (fun item_list =>
  prop "items" item_list))).



(** What precedes the query in the URL of [createReturnUrl]. *)
Definition return_prefix (configuration : Configuration) : jsstring :=
  lit "http://localhost"
  ++ (if truthy (PORT configuration)
      then 58 :: ToString (PORT configuration) else [])
  ++ lit "/approvalComplete".

(** The query of the return URL, from the five escaped values. *)
Definition correlation_query (ea ec eu eh eb : jsstring) : jsstring :=
  lit "addressId" ++ 61 :: ea ++ 38 :: lit "conversationId" ++ 61 :: ec
  ++ 38 :: lit "userId" ++ 61 :: eu ++ 38 :: lit "channelId" ++ 61 :: eh
  ++ 38 :: lit "botServiceUrl" ++ 61 :: eb.

(** The URL the provider sends the browser to after the approval: the
    return URL with paymentId, token and PayerID appended (the comment of
    app.js:169). *)
Definition paypal_redirect (returnUrl paymentId token PayerID : jsstring)
  : jsstring :=
  returnUrl ++ lit "&paymentId=" ++ paymentId ++ lit "&token=" ++ token
  ++ lit "&PayerID=" ++ PayerID.

(** The characters of a return URL: those [escape] writes, and the
    delimiters [: / ? = &]. *)
Definition url_char (c : N) : bool :=
  URI.escaped_char c || existsb (N.eqb c) [58; 47; 63; 61; 38].

(** ** The specification's own terms

    Definitions written from the words of the specification, to compare the
    program with. *)
Module Spec.

(** Section 4.2: the errors of [decode]. *)
Inductive DecodeError := MissingField | MalformedEncoding.

(** Section 3. *)
Record ConversationAddress := {
  channelId : jsstring;
  userId : jsstring;
  conversationId : jsstring;
  serviceUrl : jsstring
}.

Definition field (k : string) (p : object) : option jsstring :=
  match lookup (lit k) p with
  | Some (Str s) => Some s
  | _ => None
  end.

(** Section 4.2, [decode]: MissingField when one of the four fields is
    absent, MalformedEncoding when the service URL fails its decode pass. *)
Definition decode (rawQueryParams : object)
  : DecodeError + ConversationAddress :=
  match field "conversationId" rawQueryParams,
        field "userId" rawQueryParams,
        field "channelId" rawQueryParams,
        field "botServiceUrl" rawQueryParams with
  | Some c, Some u, Some ch, Some b =>
    match URI.Decode b with
    | Some s => inr {| channelId := ch; userId := u;
                       conversationId := c; serviceUrl := s |}
    | None => inl MalformedEncoding
    end
  | _, _, _, _ => inl MissingField
  end.

Definition is_digit (c : N) : bool := URI.in_range 48 57 c.

Fixpoint decimal (acc : N) (s : jsstring) : N :=
  match s with
  | [] => acc
  | c :: s' => decimal (10 * acc + (c - 48)) s'
  end.

(** A fixed-point decimal string with exactly two decimal places, as the
    number of hundredths it denotes. *)
Definition parse_fixed2 (s : jsstring) : option N :=
  let whole := Node.before 46 s in
  let cents := Node.after 46 s in
  if Node.nonempty whole && forallb is_digit whole
     && Node.contains 46 s
     && (List.length cents =? 2)%nat && forallb is_digit cents
  then Some (100 * decimal 0 whole + decimal 0 cents)
  else None.

(** A number of hundredths, written with exactly two decimal places. *)
Definition format_fixed2 (hundredths : N) : jsstring :=
  num_to_string (hundredths / 100)
  ++ lit "." ++ [48 + (hundredths mod 100) / 10; 48 + hundredths mod 10].

(** Price times quantity of a line item, in hundredths. *)
Definition line_amount (item : value) : option N :=
  match prop "price" item, prop "quantity" item with
  | Some (Str price), Some (Num quantity) =>
    option_map (fun p => p * quantity) (parse_fixed2 price)
  | _, _ => None
  end.

Fixpoint sum_amounts (items : list value) : option N :=
  match items with
  | [] => Some 0
  | item :: items' =>
    Node.opt_bind (line_amount item) (fun x =>
    option_map (N.add x) (sum_amounts items'))
  end.

(** Section 4.1: the total, "sum of item price x quantity, formatted as a
    fixed-point decimal string". *)
Definition total (items : value) : option value :=
  match items with
  | Arr l => option_map (fun n => Str (format_fixed2 n)) (sum_amounts l)
  | _ => None
  end.

End Spec.

(** ** Concrete runs *)

(** The scenario of the specification, with a service URL that holds a
    query, an ampersand and a percent sign. *)
Definition scenario_address : address :=
  {| id := lit "a1";
     channelId := lit "test";
     user_id := lit "u1";
     conversation_id := lit "c1";
     serviceUrl := lit "http://svc/x?y=1&z=%41" |}.

Definition scenario_session : session :=
  {| message_address := scenario_address |}.

(** The configuration of an empty environment: port 3978. *)
Definition default_configuration : Configuration := load_configuration [].

Definition self_link : link :=
  {| rel := lit "self";
     href := lit "https://api.sandbox.paypal.com/v1/payments/payment/PAY-1" |}.

Definition approval_link : link :=
  {| rel := lit "approval_url";
     href := lit "https://www.sandbox.paypal.com/cgi-bin/webscr?token=EC-1" |}.

Definition execute_link : link :=
  {| rel := lit "execute";
     href := lit "https://api.sandbox.paypal.com/v1/payments/payment/PAY-1/execute" |}.

(** A provider that accepts both calls. *)
Definition approving : provider :=
  {| create_answer := fun _ =>
       (Null, {| links := [self_link; approval_link; execute_link] |});
     execute_answer := fun _ _ =>
       (Null, Obj [(lit "id", Str (lit "PAY-1"));
                   (lit "state", Str (lit "approved"))]) |}.

(** A provider that accepts the creation and answers without an approval
    link. *)
Definition without_approval_link : provider :=
  {| create_answer := fun _ => (Null, {| links := [self_link; execute_link] |});
     execute_answer := execute_answer approving |}.

(** A provider that refuses the execution. *)
Definition refusing : provider :=
  {| create_answer := create_answer approving;
     execute_answer := fun _ _ =>
       (Obj [(lit "response", Obj [(lit "name", Str (lit "PAYMENT_NOT_APPROVED_FOR_EXECUTION"))])],
        Undefined) |}.

(** A callback whose query lacks [userId]. *)
Definition request_without_userId : request :=
  {| params := Node.queryParser false
       (lit "/approvalComplete?addressId=a1&conversationId=c1&channelId=test&botServiceUrl=http%253A%252F%252Fsvc&paymentId=PAY-1&PayerID=P1") |}.

(** A callback whose [botServiceUrl] is a lone percent sign once the query
    is parsed. *)
Definition request_malformed : request :=
  {| params := Node.queryParser false
       (lit "/approvalComplete?addressId=a1&conversationId=c1&userId=u1&channelId=test&botServiceUrl=%25&paymentId=PAY-1&PayerID=P1") |}.

(** A complete callback. *)
Definition request_complete : request :=
  {| params := Node.queryParser false
       (lit "/approvalComplete?addressId=a1&conversationId=c1&userId=u1&channelId=test&botServiceUrl=http%253A%252F%252Fsvc&paymentId=PAY-1&PayerID=P1") |}.

(** The complete callback of another payment, by another payer, with
    another addressId. *)
Definition request_other_payment : request :=
  {| params := Node.queryParser false
       (lit "/approvalComplete?addressId=zz&conversationId=c1&userId=u1&channelId=test&botServiceUrl=http%253A%252F%252Fsvc&paymentId=PAY-2&PayerID=P2") |}.

(** A callback that carries the correlation fields and neither paymentId
    nor PayerID. *)
Definition request_without_payment : request :=
  {| params := Node.queryParser false
       (lit "/approvalComplete?addressId=a1&conversationId=c1&userId=u1&channelId=test&botServiceUrl=http%253A%252F%252Fsvc") |}.

(** An address whose service URL ends in a lone high surrogate. *)
Definition broken_address : address :=
  {| id := lit "a1";
     channelId := lit "test";
     user_id := lit "u1";
     conversation_id := lit "c1";
     serviceUrl := lit "http://svc/" ++ [55357] |}.


(** A provider that refuses the creation. *)
Definition refusing_creation : provider :=
  {| create_answer := fun _ =>
       (Obj [(lit "httpStatusCode", Num 401)], {| links := [] |});
     execute_answer := execute_answer approving |}.

(** A provider whose create response carries two approval links. *)
Definition two_approval_links : provider :=
  {| create_answer := fun _ =>
       (Null, {| links := [approval_link; self_link; approval_link] |});
     execute_answer := execute_answer approving |}.

(** * Facts about the URI functions *)
Module URI_facts.
Import URI.

Lemma in_range_spec lo hi c :
  in_range lo hi c = true <-> lo <= c /\ c <= hi.
Proof.
  unfold in_range. rewrite andb_true_iff, !N.leb_le. tauto.
Qed.

Lemma in_range_false lo hi c :
  in_range lo hi c = false <-> c < lo \/ hi < c.
Proof.
  unfold in_range. rewrite andb_false_iff, !N.leb_gt. tauto.
Qed.

Lemma hexval_hexdigit d : d < 16 -> hexval (hexdigit d) = Some d.
Proof.
  intros H.
  assert (K : In d [0;1;2;3;4;5;6;7;8;9;10;11;12;13;14;15]) by (simpl; lia).
  simpl in K.
  repeat (destruct K as [<- | K]; [reflexivity|]).
  contradiction.
Qed.

(** One escape sequence at the head of a string: what [Decode] does with
    its lead octet. *)
Lemma Decode_fuel_percent f B t :
  B < 256 ->
  Decode_fuel (S f) (percent B ++ t) =
  match lead_count B with
  | O => option_map (cons B) (Decode_fuel f t)
  | 1%nat => None
  | S n =>
    if (3 <? n)%nat then None
    else
      match continuation n t with
      | Some (os, rest3) =>
        match utf8_point B os with
        | Some V => option_map (app (utf16 V)) (Decode_fuel f rest3)
        | None => None
        end
      | None => None
      end
  end.
Proof.
  intros H. unfold percent.
  cbn [app Decode_fuel].
  change (negb (PERCENT =? PERCENT)) with false. cbv iota.
  rewrite !hexval_hexdigit by lia.
  replace (16 * (B / 16) + B mod 16) with B by lia.
  reflexivity.
Qed.

Lemma continuation_percent os : forall t,
  Forall (fun c => in_range 128 191 c = true) os ->
  continuation (List.length os) (flat_map percent os ++ t) = Some (os, t).
Proof.
  induction os as [|c os IH]; intros t H; [reflexivity|].
  inversion H as [|? ? Hc Hos]; subst.
  apply in_range_spec in Hc.
  cbn [List.length flat_map]. unfold percent at 1.
  cbn [app continuation].
  change (negb (PERCENT =? PERCENT)) with false. cbv iota.
  rewrite !hexval_hexdigit by lia.
  replace (16 * (c / 16) + c mod 16) with c by lia.
  replace (in_range 128 191 c) with true by (symmetry; apply in_range_spec; lia).
  cbn [negb]. rewrite IH by assumption. reflexivity.
Qed.

(** Settles the comparisons of a goal whose outcome arithmetic decides. *)
Ltac settle_test a :=
  first
    [ replace a with true by (symmetry; first
        [ apply N.ltb_lt | apply N.leb_le | apply N.eqb_eq ]; lia)
    | replace a with false by (symmetry; first
        [ apply N.ltb_ge | apply N.leb_gt | apply N.eqb_neq ]; lia) ].

Ltac settle_tests :=
  unfold in_range;
  repeat match goal with
         | |- context [?a <? ?b] => settle_test (a <? b)
         | |- context [?a <=? ?b] => settle_test (a <=? b)
         | |- context [?a =? ?b] => settle_test (a =? b)
         end;
  cbn [andb orb negb].

Lemma escape_point_cons B os t :
  flat_map percent (B :: os) ++ t = percent B ++ (flat_map percent os ++ t).
Proof. cbn [flat_map]. now rewrite <- app_assoc. Qed.

(** The escape sequences of one code point decode to its UTF-16 form. *)
Ltac finish_point :=
  settle_tests; cbv beta iota delta [Nat.ltb Nat.leb];
  unfold utf16; settle_tests; reflexivity.

Lemma Decode_escape_point f V t :
  V <= 1114111 -> in_range 55296 57343 V = false ->
  Decode_fuel (S f) (escape_point V ++ t) =
  option_map (app (utf16 V)) (Decode_fuel f t).
Proof.
  intros Hmax Hsur. apply in_range_false in Hsur.
  unfold escape_point, utf8.
  destruct (N.ltb_spec V 128) as [H1|H1].
  - rewrite escape_point_cons, Decode_fuel_percent by lia.
    unfold lead_count. finish_point.
  - destruct (N.ltb_spec V 2048) as [H2|H2].
    + rewrite escape_point_cons, Decode_fuel_percent by lia.
      unfold lead_count. settle_tests.
      change (continuation 1) with (continuation (List.length [128 + V mod 64])).
      rewrite continuation_percent
        by (repeat constructor; apply in_range_spec; lia).
      unfold utf8_point.
      replace ((192 + V / 64 - 192) * 64 + (128 + V mod 64 - 128)) with V by lia.
      finish_point.
    + destruct (N.ltb_spec V 65536) as [H3|H3].
      * rewrite escape_point_cons, Decode_fuel_percent by lia.
        unfold lead_count. settle_tests.
        destruct Hsur as [Hsur|Hsur];
        change (continuation 2) with
          (continuation (List.length [128 + (V / 64) mod 64; 128 + V mod 64]));
        rewrite continuation_percent
          by (repeat constructor; apply in_range_spec; lia);
        unfold utf8_point;
        replace ((224 + V / 4096 - 224) * 4096
                 + (128 + (V / 64) mod 64 - 128) * 64
                 + (128 + V mod 64 - 128)) with V by lia;
        finish_point.
      * rewrite escape_point_cons, Decode_fuel_percent by lia.
        unfold lead_count. settle_tests.
        change (continuation 3) with
          (continuation
             (List.length [128 + (V / 4096) mod 64; 128 + (V / 64) mod 64;
                           128 + V mod 64])).
        rewrite continuation_percent
          by (repeat constructor; apply in_range_spec; lia).
        unfold utf8_point.
        replace ((240 + V / 262144 - 240) * 262144
                 + (128 + (V / 4096) mod 64 - 128) * 4096
                 + (128 + (V / 64) mod 64 - 128) * 64
                 + (128 + V mod 64 - 128)) with V by lia.
        finish_point.
Qed.

Lemma uriUnescaped_spec c :
  uriUnescaped c = true <->
  (65 <= c <= 90) \/ (97 <= c <= 122) \/ (48 <= c <= 57) \/
  In c [45; 95; 46; 33; 126; 42; 39; 40; 41].
Proof.
  unfold uriUnescaped, in_range.
  rewrite !orb_true_iff, !andb_true_iff, !N.leb_le, !N.eqb_eq.
  simpl. intuition lia.
Qed.

Lemma hexdigit_unescaped d : d < 16 -> uriUnescaped (hexdigit d) = true.
Proof.
  intros H.
  assert (K : In d [0;1;2;3;4;5;6;7;8;9;10;11;12;13;14;15]) by (simpl; lia).
  simpl in K.
  repeat (destruct K as [<- | K]; [reflexivity|]).
  contradiction.
Qed.

Lemma autoEscape_hexdigit d : d < 16 -> Node.autoEscape (hexdigit d) = [hexdigit d].
Proof.
  intros H.
  assert (K : In d [0;1;2;3;4;5;6;7;8;9;10;11;12;13;14;15]) by (simpl; lia).
  simpl in K.
  repeat (destruct K as [<- | K]; [reflexivity|]).
  contradiction.
Qed.

Lemma escaped_rest_app b x y :
  Node.escaped_rest b (x ++ y) = Node.escaped_rest b x ++ Node.escaped_rest b y.
Proof. destruct b; cbn; [apply flat_map_app | reflexivity]. Qed.

Lemma escaped_rest_percent b os :
  Forall (fun o => o < 256) os ->
  Node.escaped_rest b (flat_map percent os) = flat_map percent os.
Proof.
  destruct b; [|reflexivity]. cbn.
  induction 1 as [|o os Ho _ IH]; [reflexivity|].
  cbn [flat_map]. rewrite flat_map_app, IH. f_equal.
  unfold percent. cbn [flat_map].
  rewrite !autoEscape_hexdigit by lia. reflexivity.
Qed.

Lemma percent_escaped os :
  Forall (fun o => o < 256) os ->
  Forall (fun c => escaped_char c = true) (flat_map percent os).
Proof.
  induction 1 as [|o os Ho _ IH]; [constructor|].
  cbn [flat_map]. apply Forall_app. split; [|exact IH].
  unfold percent, escaped_char.
  repeat constructor; rewrite ?hexdigit_unescaped by lia; reflexivity.
Qed.

Lemma utf8_octets V : V < 2097152 -> Forall (fun o => o < 256) (utf8 V).
Proof.
  intros H. unfold utf8.
  destruct (N.ltb_spec V 128); [repeat constructor; lia|].
  destruct (N.ltb_spec V 2048); [repeat constructor; lia|].
  destruct (N.ltb_spec V 65536); repeat constructor; lia.
Qed.

Lemma escape_point_length V : (1 <= List.length (escape_point V))%nat.
Proof.
  unfold escape_point, utf8.
  destruct (V <? 128); [cbn; lia|].
  destruct (V <? 2048); [cbn; lia|].
  destruct (V <? 65536); cbn; lia.
Qed.

Lemma autoEscape_unescaped c :
  uriUnescaped c = true -> c <> 39 -> Node.autoEscape c = [c].
Proof.
  intros H Hc. apply uriUnescaped_spec in H. simpl in H.
  unfold Node.autoEscape. cbn [existsb]. settle_tests. reflexivity.
Qed.

(** Decoding what was written for one code point, then the rest. *)
Lemma Decode_point_then b V e s' :
  V <= 1114111 -> in_range 55296 57343 V = false ->
  (forall f, (List.length (Node.escaped_rest b e) <= f)%nat ->
             Decode_fuel f (Node.escaped_rest b e) = Some s') ->
  forall f,
    (List.length (Node.escaped_rest b (escape_point V ++ e)) <= f)%nat ->
    Decode_fuel f (Node.escaped_rest b (escape_point V ++ e))
    = Some (utf16 V ++ s').
Proof.
  intros Hmax Hsur IH f Hf.
  rewrite escaped_rest_app in *.
  unfold escape_point in Hf |- * at 1.
  rewrite escaped_rest_percent in * by (apply utf8_octets; lia).
  fold (escape_point V) in *.
  rewrite length_app in Hf. pose proof (escape_point_length V).
  destruct f as [|f]; [lia|].
  rewrite Decode_escape_point by assumption.
  rewrite IH by lia. reflexivity.
Qed.

(** Decoding an unescaped character, then the rest. *)
Lemma Decode_unescaped_then b c e s' :
  uriUnescaped c = true ->
  (forall f, (List.length (Node.escaped_rest b e) <= f)%nat ->
             Decode_fuel f (Node.escaped_rest b e) = Some s') ->
  forall f,
    (List.length (Node.escaped_rest b (c :: e)) <= f)%nat ->
    Decode_fuel f (Node.escaped_rest b (c :: e)) = Some (c :: s').
Proof.
  intros Hu IH f Hf.
  change (c :: e) with ([c] ++ e) in *.
  rewrite escaped_rest_app in *. rewrite length_app in Hf.
  destruct b.
  - destruct (N.eq_dec c 39) as [->|Hc].
    + change (Node.escaped_rest true [39]) with (percent 39) in *.
      cbn [List.length percent] in Hf.
      destruct f as [|f]; [lia|].
      rewrite Decode_fuel_percent by lia.
      cbn [lead_count N.ltb N.compare Pos.compare Pos.compare_cont].
      rewrite IH by lia. reflexivity.
    + cbn [Node.escaped_rest flat_map] in *.
      rewrite autoEscape_unescaped in * by assumption.
      cbn [List.length app] in *.
      destruct f as [|f]; [lia|].
      cbn [Decode_fuel].
      apply uriUnescaped_spec in Hu. simpl in Hu.
      unfold PERCENT. settle_tests.
      rewrite IH by lia. reflexivity.
  - cbn [Node.escaped_rest List.length app] in *.
    destruct f as [|f]; [lia|].
    cbn [Decode_fuel].
    apply uriUnescaped_spec in Hu. simpl in Hu.
    unfold PERCENT. settle_tests.
    rewrite IH by lia. reflexivity.
Qed.

Lemma continuation_length n : forall s os rest,
  continuation n s = Some (os, rest) ->
  (List.length rest <= List.length s)%nat.
Proof.
  induction n as [|n IH]; intros s os rest H.
  - cbn in H. injection H as _ <-. apply le_n.
  - destruct s as [|p [|h1 [|h2 r]]]; try discriminate H.
    cbn [continuation] in H.
    destruct (negb (p =? PERCENT)); [discriminate|].
    destruct (hexval h1); [|discriminate].
    destruct (hexval h2); [|discriminate].
    cbv zeta in H.
    destruct (negb (in_range 128 191 (16 * n0 + n1))); [discriminate|].
    destruct (continuation n r) as [[os' rest']|] eqn:E; [|discriminate].
    injection H as _ <-. apply IH in E. cbn [List.length]. lia.
Qed.

(** [Decode] never runs out of fuel: any fuel that covers the length of
    the string gives the same answer, so a missing result is a URIError. *)
Lemma Decode_fuel_enough f1 : forall f2 s,
  (List.length s <= f1)%nat -> (List.length s <= f2)%nat ->
  Decode_fuel f1 s = Decode_fuel f2 s.
Proof.
  induction f1 as [|f1 IH]; intros f2 s H1 H2.
  - destruct s; [destruct f2; reflexivity | cbn in H1; lia].
  - destruct s as [|c rest]; [destruct f2; reflexivity|].
    destruct f2 as [|f2]; [cbn in H2; lia|].
    cbn [List.length] in H1, H2. cbn [Decode_fuel].
    destruct (negb (c =? PERCENT)).
    { rewrite (IH f2 rest) by lia. reflexivity. }
    destruct rest as [|h1 [|h2 rest2]]; try reflexivity.
    cbn [List.length] in H1, H2.
    destruct (hexval h1) as [a|]; [|reflexivity].
    destruct (hexval h2) as [b|]; [|reflexivity].
    cbv zeta.
    destruct (lead_count (16 * a + b)) as [|[|n]].
    + rewrite (IH f2 rest2) by lia. reflexivity.
    + reflexivity.
    + destruct (3 <? S n)%nat; [reflexivity|].
      destruct (continuation (S n) rest2) as [[os rest3]|] eqn:E;
        [|reflexivity].
      apply continuation_length in E.
      destruct (utf8_point (16 * a + b) os); [|reflexivity].
      rewrite (IH f2 rest3) by lia. reflexivity.
Qed.

(** What [Encode] writes for a well-formed string decodes to that string,
    whether or not [url.parse] has escaped it on the way. *)
Lemma Encode_Decode_bounded n : forall s,
  (List.length s <= n)%nat -> well_formed s = true ->
  exists e,
    Encode s = Some e /\
    Forall (fun c => escaped_char c = true) e /\
    forall b f, (List.length (Node.escaped_rest b e) <= f)%nat ->
                Decode_fuel f (Node.escaped_rest b e) = Some s.
Proof.
  induction n as [|n IH]; intros s Hlen Hwf.
  - destruct s; [|cbn in Hlen; lia].
    exists []. repeat split; [constructor|].
    intros [] []; reflexivity.
  - destruct s as [|c rest].
    { exists []. repeat split; [constructor|]. intros [] []; reflexivity. }
    cbn [List.length] in Hlen. cbn [well_formed] in Hwf. cbn [Encode].
    destruct (uriUnescaped c) eqn:Hu.
    + pose proof Hu as Hr. apply uriUnescaped_spec in Hr. simpl in Hr.
      replace (is_low_surrogate c) with false in Hwf
        by (unfold is_low_surrogate; settle_tests; reflexivity).
      replace (is_high_surrogate c) with false in Hwf
        by (unfold is_high_surrogate; settle_tests; reflexivity).
      apply andb_true_iff in Hwf as [_ Hwf].
      destruct (IH rest ltac:(lia) Hwf) as (e & He & Hsafe & Hdec).
      exists (c :: e). rewrite He. repeat split.
      * constructor; [unfold escaped_char; now rewrite Hu | exact Hsafe].
      * intros b. apply Decode_unescaped_then; [exact Hu | apply Hdec].
    + destruct (is_low_surrogate c) eqn:Hlow; [discriminate|].
      destruct (is_high_surrogate c) eqn:Hhigh; cbn [negb].
      * destruct rest as [|d rest']; [discriminate|].
        apply andb_true_iff in Hwf as [Hd Hwf]. rewrite Hd. cbn [negb].
        cbn [List.length] in Hlen.
        destruct (IH rest' ltac:(lia) Hwf) as (e & He & Hsafe & Hdec).
        apply in_range_spec in Hhigh, Hd.
        set (V := (c - 55296) * 1024 + (d - 56320) + 65536).
        exists (escape_point V ++ e). rewrite He. repeat split.
        -- apply Forall_app. split; [|exact Hsafe].
           apply percent_escaped, utf8_octets. subst V. lia.
        -- intros b f Hf.
           replace (c :: d :: rest') with (utf16 V ++ rest').
           ++ apply Decode_point_then; try assumption.
              ** subst V. lia.
              ** apply in_range_false. subst V. lia.
              ** apply Hdec.
           ++ unfold utf16. subst V. settle_tests. cbn [app].
              f_equal; [lia|]. f_equal. lia.
      * apply andb_true_iff in Hwf as [Hc Hwf].
        apply N.ltb_lt in Hc.
        destruct (IH rest ltac:(lia) Hwf) as (e & He & Hsafe & Hdec).
        apply in_range_false in Hlow, Hhigh.
        exists (escape_point c ++ e). rewrite He. repeat split.
        -- apply Forall_app. split; [|exact Hsafe].
           apply percent_escaped, utf8_octets. lia.
        -- intros b f Hf.
           change (c :: rest) with ([c] ++ rest).
           replace [c] with (utf16 c)
             by (unfold utf16; settle_tests; reflexivity).
           apply Decode_point_then; try assumption.
           ++ lia.
           ++ apply in_range_false. lia.
           ++ apply Hdec.
Qed.

Lemma Encode_Decode s :
  well_formed s = true ->
  exists e,
    Encode s = Some e /\
    Forall (fun c => escaped_char c = true) e /\
    forall b, Decode (Node.escaped_rest b e) = Some s.
Proof.
  intros H.
  destruct (Encode_Decode_bounded (List.length s) s (le_n _) H)
    as (e & He & Hsafe & Hdec).
  exists e. repeat split; try assumption.
  intros b. apply Hdec. apply le_n.
Qed.

End URI_facts.

(** * Facts about the platform functions *)
Module Node_facts.
Import URI URI_facts.

Lemma escaped_char_spec c :
  escaped_char c = true ->
  c < 128 /\ c <> 35 /\ c <> 38 /\ c <> 43 /\ c <> 61 /\ c <> 63 /\ c <> 93.
Proof.
  unfold escaped_char. rewrite orb_true_iff, uriUnescaped_spec, N.eqb_eq.
  unfold PERCENT. simpl. lia.
Qed.

Lemma forallb_Forall {A} (p : A -> bool) l :
  forallb p l = true <-> Forall (fun x => p x = true) l.
Proof. rewrite forallb_forall, Forall_forall. reflexivity. Qed.

Lemma escaped_Forall (P : N -> Prop) e :
  (forall c, escaped_char c = true -> P c) ->
  forallb escaped_char e = true -> Forall P e.
Proof.
  intros HP H. apply forallb_Forall in H.
  eapply Forall_impl; [|exact H]. exact HP.
Qed.

Lemma Encode_Decode_escaped s :
  well_formed s = true ->
  exists e,
    Encode s = Some e /\ forallb escaped_char e = true /\
    forall b, Decode (Node.escaped_rest b e) = Some s.
Proof.
  intros H. destruct (Encode_Decode s H) as (e & He & Hs & Hd).
  exists e. repeat split; try assumption. now apply forallb_Forall.
Qed.

Lemma escaped_rest_escaped b e :
  forallb escaped_char e = true ->
  forallb escaped_char (Node.escaped_rest b e) = true.
Proof.
  destruct b; [|trivial]. cbn.
  induction e as [|c e IH]; [reflexivity|].
  cbn [forallb flat_map]. rewrite andb_true_iff. intros [Hc He].
  rewrite forallb_app, IH by assumption. rewrite andb_true_r.
  unfold escaped_char in Hc. apply orb_true_iff in Hc as [Hu|Hp].
  - destruct (N.eq_dec c 39) as [->|Hn]; [reflexivity|].
    rewrite autoEscape_unescaped by assumption.
    cbn. unfold escaped_char. now rewrite Hu.
  - apply N.eqb_eq in Hp. subst c. reflexivity.
Qed.

Lemma escaped_well_formed e :
  forallb escaped_char e = true -> well_formed e = true.
Proof.
  induction e as [|c e IH]; [reflexivity|].
  cbn [forallb well_formed]. rewrite andb_true_iff. intros [Hc He].
  apply escaped_char_spec in Hc.
  unfold is_low_surrogate, is_high_surrogate. settle_tests.
  now apply IH.
Qed.

(** *** Cutting strings *)

Lemma split_app c x r :
  Forall (fun a => a <> c) x ->
  Node.split c (x ++ c :: r) = x :: Node.split c r.
Proof.
  induction 1 as [|a x Ha _ IH]; cbn [app Node.split].
  - now rewrite N.eqb_refl.
  - apply N.eqb_neq in Ha. rewrite Ha, IH. reflexivity.
Qed.

Lemma split_last c x :
  Forall (fun a => a <> c) x -> Node.split c x = [x].
Proof.
  induction 1 as [|a x Ha _ IH]; cbn [Node.split]; [reflexivity|].
  apply N.eqb_neq in Ha. rewrite Ha, IH. reflexivity.
Qed.

Lemma before_none c x :
  Forall (fun a => a <> c) x -> Node.before c x = x.
Proof.
  induction 1 as [|a x Ha _ IH]; cbn [Node.before]; [reflexivity|].
  apply N.eqb_neq in Ha. rewrite Ha, IH. reflexivity.
Qed.

Lemma after_app c x r :
  Forall (fun a => a <> c) x -> Node.after c (x ++ c :: r) = r.
Proof.
  induction 1 as [|a x Ha _ IH]; cbn [app Node.after].
  - now rewrite N.eqb_refl.
  - apply N.eqb_neq in Ha. rewrite Ha, IH. reflexivity.
Qed.

Lemma replace_first_hash_none x :
  Forall (fun a => a <> 35) x -> Node.replace_first_hash x = x.
Proof.
  induction 1 as [|a x Ha _ IH]; cbn [Node.replace_first_hash]; [reflexivity|].
  apply N.eqb_neq in Ha. rewrite Ha, IH. reflexivity.
Qed.

Lemma plus_to_space_none x :
  Forall (fun a => a <> 43) x ->
  List.map (fun c => if c =? 43 then 32 else c) x = x.
Proof.
  induction 1 as [|a x Ha _ IH]; cbn [List.map]; [reflexivity|].
  apply N.eqb_neq in Ha. rewrite Ha, IH. reflexivity.
Qed.

Lemma index_bracket_eq_none x :
  Forall (fun a => a <> 93) x -> Node.index_bracket_eq x = None.
Proof.
  induction 1 as [|a x Ha _ IH]; [reflexivity|].
  cbn [Node.index_bracket_eq]. destruct x as [|b x]; [reflexivity|].
  apply N.eqb_neq in Ha. rewrite Ha. cbn [andb]. now rewrite IH.
Qed.

Lemma index_eq_app k x :
  Forall (fun a => a <> 61) k ->
  Node.index_eq (k ++ 61 :: x) = Some (List.length k).
Proof.
  induction 1 as [|a k Ha _ IH]; [reflexivity|].
  cbn [app Node.index_eq List.length].
  apply N.eqb_neq in Ha. rewrite Ha, IH. reflexivity.
Qed.

(** The decoder of [qs] on a string as [escape] wrote it, seen through
    [url.parse]. *)
Lemma qs_decode_escaped b e s :
  forallb escaped_char e = true ->
  Decode (Node.escaped_rest b e) = Some s ->
  Node.qs_decode (Node.escaped_rest b e) = s.
Proof.
  intros He Hd. unfold Node.qs_decode.
  rewrite plus_to_space_none, Hd; [reflexivity|].
  apply escaped_Forall with (e := Node.escaped_rest b e).
  - intros c Hc. apply escaped_char_spec in Hc. tauto.
  - now apply escaped_rest_escaped.
Qed.

(** A part [k=x] whose key and value hold neither [=] nor "]". *)
Lemma parse_part_field k x :
  Forall (fun a => a <> 61 /\ a <> 93) k ->
  Forall (fun a => a <> 93) x ->
  Node.parse_part (k ++ 61 :: x) = (Node.qs_decode k, Node.qs_decode x).
Proof.
  intros Hk Hx. unfold Node.parse_part.
  rewrite index_bracket_eq_none.
  - rewrite index_eq_app by (eapply Forall_impl; [|exact Hk]; cbn; tauto).
    rewrite firstn_app, firstn_all, Nat.sub_diag. cbn [firstn].
    rewrite app_nil_r.
    change (S (List.length k)) with (1 + List.length k)%nat.
    rewrite <- skipn_skipn, skipn_app, skipn_all, Nat.sub_diag.
    reflexivity.
  - apply Forall_app. split.
    + eapply Forall_impl; [|exact Hk]. cbn. tauto.
    + constructor; [lia | exact Hx].
Qed.

Lemma escaped_rest_stable b P :
  Forall (fun c => Node.autoEscape c = [c]) P -> Node.escaped_rest b P = P.
Proof.
  destruct b; [|reflexivity]. cbn.
  induction 1 as [|c P Hc _ IH]; [reflexivity|].
  cbn [flat_map]. rewrite Hc, IH. reflexivity.
Qed.

Lemma field_Forall (P : N -> Prop) K X :
  (forall c, escaped_char c = true -> P c) -> P 61 ->
  forallb escaped_char K = true -> forallb escaped_char X = true ->
  Forall P (K ++ 61 :: X).
Proof.
  intros HP H61 HK HX. apply Forall_app. split.
  - now apply escaped_Forall.
  - constructor; [assumption|]. now apply escaped_Forall.
Qed.

Lemma not_hash c : escaped_char c = true -> c <> 35.
Proof. intros H. apply escaped_char_spec in H. tauto. Qed.

Lemma not_amp c : escaped_char c = true -> c <> 38.
Proof. intros H. apply escaped_char_spec in H. tauto. Qed.

Lemma not_eq_bracket c : escaped_char c = true -> c <> 61 /\ c <> 93.
Proof. intros H. apply escaped_char_spec in H. tauto. Qed.

Lemma not_bracket c : escaped_char c = true -> c <> 93.
Proof. intros H. apply escaped_char_spec in H. tauto. Qed.

Lemma parse_field K X :
  forallb escaped_char K = true -> forallb escaped_char X = true ->
  Node.parse_part (K ++ 61 :: X) = (Node.qs_decode K, Node.qs_decode X).
Proof.
  intros HK HX. apply parse_part_field.
  - apply escaped_Forall; [exact not_eq_bracket | exact HK].
  - apply escaped_Forall; [exact not_bracket | exact HX].
Qed.

(** The five fields of the return URL, as [qs] reads them. *)
Lemma qs_parse_five Xa Xc Xu Xh Xb :
  forallb escaped_char Xa = true -> forallb escaped_char Xc = true ->
  forallb escaped_char Xu = true -> forallb escaped_char Xh = true ->
  forallb escaped_char Xb = true ->
  Node.qs_parse
    (lit "addressId=" ++ Xa ++ lit "&conversationId=" ++ Xc
     ++ lit "&userId=" ++ Xu ++ lit "&channelId=" ++ Xh
     ++ lit "&botServiceUrl=" ++ Xb)
  = [ (lit "addressId", Str (Node.qs_decode Xa));
      (lit "conversationId", Str (Node.qs_decode Xc));
      (lit "userId", Str (Node.qs_decode Xu));
      (lit "channelId", Str (Node.qs_decode Xh));
      (lit "botServiceUrl", Str (Node.qs_decode Xb)) ].
Proof.
  intros Ha Hc Hu Hh Hb. unfold Node.qs_parse.
  change (lit "addressId=" ++ Xa ++ lit "&conversationId=" ++ Xc
          ++ lit "&userId=" ++ Xu ++ lit "&channelId=" ++ Xh
          ++ lit "&botServiceUrl=" ++ Xb)
    with ((lit "addressId" ++ 61 :: Xa) ++ 38 ::
          (lit "conversationId" ++ 61 :: Xc) ++ 38 ::
          (lit "userId" ++ 61 :: Xu) ++ 38 ::
          (lit "channelId" ++ 61 :: Xh) ++ 38 ::
          (lit "botServiceUrl" ++ 61 :: Xb)).
  rewrite !split_app, split_last
    by (apply field_Forall; solve [exact not_amp | lia | reflexivity | assumption]).
  cbn [firstn Node.parameterLimit fold_left].
  rewrite !parse_field by solve [reflexivity | assumption].
  reflexivity.
Qed.

(** The query [querystring.stringify] writes, seen through [url.parse]. *)
Lemma escaped_rest_five b ea ec eu eh eb :
  Node.escaped_rest b
    (lit "addressId" ++ 61 :: ea ++ 38 :: lit "conversationId" ++ 61 :: ec
     ++ 38 :: lit "userId" ++ 61 :: eu ++ 38 :: lit "channelId" ++ 61 :: eh
     ++ 38 :: lit "botServiceUrl" ++ 61 :: eb)
  = lit "addressId=" ++ Node.escaped_rest b ea
    ++ lit "&conversationId=" ++ Node.escaped_rest b ec
    ++ lit "&userId=" ++ Node.escaped_rest b eu
    ++ lit "&channelId=" ++ Node.escaped_rest b eh
    ++ lit "&botServiceUrl=" ++ Node.escaped_rest b eb.
Proof.
  destruct b; [|reflexivity].
  change (lit "addressId" ++ 61 :: ea ++ 38 :: lit "conversationId" ++ 61 :: ec
          ++ 38 :: lit "userId" ++ 61 :: eu ++ 38 :: lit "channelId" ++ 61 :: eh
          ++ 38 :: lit "botServiceUrl" ++ 61 :: eb)
    with (lit "addressId=" ++ ea ++ lit "&conversationId=" ++ ec
          ++ lit "&userId=" ++ eu ++ lit "&channelId=" ++ eh
          ++ lit "&botServiceUrl=" ++ eb).
  rewrite !escaped_rest_app. reflexivity.
Qed.

Lemma no_hash_Forall l :
  forallb (fun c => negb (c =? 35)) l = true -> Forall (fun c => c <> 35) l.
Proof.
  intros H. apply forallb_Forall in H.
  eapply Forall_impl; [|exact H]. cbn. intros c Hc.
  apply N.eqb_neq. now apply negb_true_iff.
Qed.

Lemma five_no_hash Xa Xc Xu Xh Xb :
  forallb escaped_char Xa = true -> forallb escaped_char Xc = true ->
  forallb escaped_char Xu = true -> forallb escaped_char Xh = true ->
  forallb escaped_char Xb = true ->
  Forall (fun c => c <> 35)
    (lit "addressId=" ++ Xa ++ lit "&conversationId=" ++ Xc
     ++ lit "&userId=" ++ Xu ++ lit "&channelId=" ++ Xh
     ++ lit "&botServiceUrl=" ++ Xb).
Proof.
  intros Ha Hc Hu Hh Hb.
  repeat (apply Forall_app; split);
    first [ apply escaped_Forall; [exact not_hash | assumption]
          | apply no_hash_Forall; reflexivity ].
Qed.

(** On a well-formed string, [querystring.escape] writes what
    [encodeURIComponent] writes. *)
Lemma escape_well_formed_bounded n : forall s,
  (List.length s <= n)%nat -> well_formed s = true ->
  Node.escape s = Encode s.
Proof.
  induction n as [|n IH]; intros s Hlen Hwf.
  - destruct s; [reflexivity | cbn in Hlen; lia].
  - destruct s as [|c rest]; [reflexivity|].
    cbn [List.length] in Hlen. cbn [well_formed] in Hwf.
    cbn [Node.escape Encode].
    destruct (uriUnescaped c) eqn:Hu.
    + pose proof Hu as Hr. apply uriUnescaped_spec in Hr. simpl in Hr.
      replace (is_low_surrogate c) with false in Hwf
        by (unfold is_low_surrogate; settle_tests; reflexivity).
      replace (is_high_surrogate c) with false in Hwf
        by (unfold is_high_surrogate; settle_tests; reflexivity).
      apply andb_true_iff in Hwf as [_ Hwf].
      replace (c <? 128) with true by (symmetry; apply N.ltb_lt; lia).
      rewrite (IH rest) by (assumption || lia).
      destruct (Encode rest); reflexivity.
    + destruct (is_low_surrogate c) eqn:Hlow; [discriminate|].
      destruct (is_high_surrogate c) eqn:Hhigh; cbn [negb].
      * destruct rest as [|d rest']; [discriminate|].
        apply andb_true_iff in Hwf as [Hd Hwf]. rewrite Hd. cbn [negb].
        cbn [List.length] in Hlen.
        apply in_range_spec in Hhigh, Hd.
        settle_tests. cbv zeta.
        rewrite (IH rest') by (assumption || lia).
        replace (65536 + (c mod 1024 * 1024 + d mod 1024))
          with ((c - 55296) * 1024 + (d - 56320) + 65536) by lia.
        unfold escape_point, utf8. settle_tests. reflexivity.
      * apply andb_true_iff in Hwf as [Hc Hwf]. apply N.ltb_lt in Hc.
        apply in_range_false in Hlow, Hhigh.
        rewrite (IH rest) by (assumption || lia).
        unfold escape_point, utf8.
        destruct (N.ltb_spec c 128) as [H1|H1].
        -- destruct (Encode rest); cbn [option_map flat_map];
             rewrite ?app_nil_r; reflexivity.
        -- destruct (N.ltb_spec c 2048) as [H2|H2]; [reflexivity|].
           assert (Hout : c < 55296 \/ 57344 <= c) by lia.
           destruct Hout; settle_tests; reflexivity.
Qed.

Lemma escape_well_formed s :
  well_formed s = true -> Node.escape s = Encode s.
Proof. apply (escape_well_formed_bounded (List.length s)). apply le_n. Qed.

Lemma stringify_queryObject a b ea ec eu eh eb :
  Node.escape (id a) = Some ea -> Node.escape (conversation_id a) = Some ec ->
  Node.escape (user_id a) = Some eu -> Node.escape (channelId a) = Some eh ->
  Node.escape b = Some eb ->
  Node.stringify (queryObject a b) =
  Some (lit "addressId" ++ 61 :: ea ++ 38 :: lit "conversationId" ++ 61 :: ec
        ++ 38 :: lit "userId" ++ 61 :: eu ++ 38 :: lit "channelId" ++ 61 :: eh
        ++ 38 :: lit "botServiceUrl" ++ 61 :: eb).
Proof.
  intros Ha Hc Hu Hh Hb. unfold queryObject.
  cbn [Node.stringify Node.stringifyPrimitive].
  rewrite Ha, Hc, Hu, Hh, Hb.
  cbn [Node.opt_bind option_map].
  change (Node.escape (lit "addressId")) with (Some (lit "addressId")).
  change (Node.escape (lit "conversationId")) with (Some (lit "conversationId")).
  change (Node.escape (lit "userId")) with (Some (lit "userId")).
  change (Node.escape (lit "channelId")) with (Some (lit "channelId")).
  change (Node.escape (lit "botServiceUrl")) with (Some (lit "botServiceUrl")).
  cbn [Node.opt_bind].
  rewrite <- !app_assoc, !app_nil_r.
  reflexivity.
Qed.

(** The same, from what [encodeURIComponent] writes for well-formed
    strings. *)
Lemma stringify_queryObject_Encode a b ea ec eu eh eb :
  well_formed (id a) = true -> well_formed (conversation_id a) = true ->
  well_formed (user_id a) = true -> well_formed (channelId a) = true ->
  well_formed b = true ->
  Encode (id a) = Some ea -> Encode (conversation_id a) = Some ec ->
  Encode (user_id a) = Some eu -> Encode (channelId a) = Some eh ->
  Encode b = Some eb ->
  Node.stringify (queryObject a b) =
  Some (lit "addressId" ++ 61 :: ea ++ 38 :: lit "conversationId" ++ 61 :: ec
        ++ 38 :: lit "userId" ++ 61 :: eu ++ 38 :: lit "channelId" ++ 61 :: eh
        ++ 38 :: lit "botServiceUrl" ++ 61 :: eb).
Proof.
  intros Wa Wc Wu Wh Wb Ha Hc Hu Hh Hb.
  apply stringify_queryObject; rewrite escape_well_formed; assumption.
Qed.

Lemma url_format_urlObject cfg q query :
  Node.stringify q = Some query ->
  Node.nonempty query = true ->
  Forall (fun a => a <> 35) query ->
  Node.url_format (urlObject cfg q) =
  Some ((lit "http://localhost"
         ++ (if truthy (PORT cfg) then 58 :: ToString (PORT cfg) else [])
         ++ lit "/approvalComplete") ++ 63 :: query).
Proof.
  intros Hq Hn Hh. unfold Node.url_format, urlObject.
  cbn [Node.query Node.protocol Node.hostname Node.port Node.pathname].
  rewrite Hq. cbn [Node.opt_bind]. rewrite Hn.
  destruct (truthy (PORT cfg)); cbn;
    rewrite replace_first_hash_none by assumption;
    rewrite <- ?app_assoc; reflexivity.
Qed.

Lemma getQuery_url b P Q :
  Forall (fun c => Node.autoEscape c = [c] /\ c <> 35 /\ c <> 63) P ->
  Forall (fun c => c <> 35) (Node.escaped_rest b Q) ->
  Node.getQuery b (P ++ 63 :: Q) = Node.escaped_rest b Q.
Proof.
  intros HP HQ. unfold Node.getQuery.
  change (63 :: Q) with ([63] ++ Q).
  rewrite !escaped_rest_app.
  rewrite (escaped_rest_stable b P)
    by (eapply Forall_impl; [|exact HP]; cbn; tauto).
  replace (Node.escaped_rest b [63]) with [63] by (destruct b; reflexivity).
  cbn [app].
  rewrite before_none.
  - apply after_app. eapply Forall_impl; [|exact HP]. cbn. tauto.
  - apply Forall_app. split.
    + eapply Forall_impl; [|exact HP]. cbn. tauto.
    + constructor; [lia | exact HQ].
Qed.

Lemma digit_plain c :
  in_range 48 57 c = true ->
  Node.autoEscape c = [c] /\ c <> 35 /\ c <> 63.
Proof.
  intros H. apply in_range_spec in H. repeat split; try lia.
  unfold Node.autoEscape. cbn [existsb]. settle_tests. reflexivity.
Qed.

End Node_facts.

(** * The correlation round trip *)
Module Correlation.
Import URI URI_facts Node_facts.

(** The return URL of a valid address, and what the server reads back from
    its query. *)
Lemma returnUrl_parameters configuration a escaping :
  valid_address a = true ->
  decimal_port (PORT configuration) = true ->
  exists returnUrl e,
    createReturnUrl configuration a
    = ([ConsoleLog [Str (lit "Creating Return Url")]], Return returnUrl) /\
    Decode e = Some (serviceUrl a) /\
    Node.queryParser escaping returnUrl
    = [ (lit "addressId", Str (id a));
        (lit "conversationId", Str (conversation_id a));
        (lit "userId", Str (user_id a));
        (lit "channelId", Str (channelId a));
        (lit "botServiceUrl", Str e) ].
Proof.
  intros Hv Hp. unfold valid_address in Hv.
  repeat (apply andb_true_iff in Hv as [Hv ?]).
  destruct (Encode_Decode_escaped (id a)) as (ea & Ea & Sa & Da); [assumption|].
  destruct (Encode_Decode_escaped (conversation_id a)) as (ec & Ec & Sc & Dc);
    [assumption|].
  destruct (Encode_Decode_escaped (user_id a)) as (eu & Eu & Su & Du);
    [assumption|].
  destruct (Encode_Decode_escaped (channelId a)) as (eh & Eh & Sh & Dh);
    [assumption|].
  destruct (Encode_Decode_escaped (serviceUrl a)) as (e & Ee & Se & De);
    [assumption|].
  destruct (Encode_Decode_escaped e) as (eb & Eb & Sb & Db);
    [now apply escaped_well_formed|].
  pose proof (stringify_queryObject_Encode a e ea ec eu eh eb
                ltac:(assumption) ltac:(assumption) ltac:(assumption)
                ltac:(assumption) (escaped_well_formed e Se)
                Ea Ec Eu Eh Eb) as Hq.
  pose proof (five_no_hash _ _ _ _ _
                (escaped_rest_escaped escaping _ Sa)
                (escaped_rest_escaped escaping _ Sc)
                (escaped_rest_escaped escaping _ Su)
                (escaped_rest_escaped escaping _ Sh)
                (escaped_rest_escaped escaping _ Sb)) as Hh.
  rewrite <- escaped_rest_five in Hh.
  eexists. exists e. split; [|split].
  - unfold createReturnUrl, encodeURIComponent. cbn [ToString].
    rewrite Ee. cbn [or_URIError bind ret console_log emit app].
    erewrite url_format_urlObject; [reflexivity | exact Hq | reflexivity |].
    exact (five_no_hash ea ec eu eh eb Sa Sc Su Sh Sb).
  - exact (De false).
  - unfold Node.queryParser.
    rewrite getQuery_url; [| |exact Hh].
    + rewrite escaped_rest_five. cbn [Node.nonempty lit app].
      change (Node.nonempty (_ :: _)) with true. cbv iota.
      rewrite qs_parse_five by (now apply escaped_rest_escaped).
      rewrite !(qs_decode_escaped escaping) with (s := id a),
              !(qs_decode_escaped escaping) with (s := conversation_id a),
              !(qs_decode_escaped escaping) with (s := user_id a),
              !(qs_decode_escaped escaping) with (s := channelId a),
              !(qs_decode_escaped escaping) with (s := e)
        by auto.
      reflexivity.
    + repeat (apply Forall_app; split).
      * apply Forall_forall. intros c Hc. cbn in Hc.
        repeat (destruct Hc as [<- | Hc]; [repeat split; try lia; reflexivity|]).
        contradiction.
      * destruct (truthy (PORT configuration)); [|constructor].
        constructor; [repeat split; try lia; reflexivity|].
        apply forallb_Forall in Hp.
        eapply Forall_impl; [|exact Hp]. exact digit_plain.
      * apply Forall_forall. intros c Hc. cbn in Hc.
        repeat (destruct Hc as [<- | Hc]; [repeat split; try lia; reflexivity|]).
        contradiction.
Qed.

End Correlation.

(** * The properties of the specification *)

Import URI URI_facts Node_facts.

Lemma str_eqb_eq a : forall b, str_eqb a b = true <-> a = b.
Proof.
  induction a as [|x a IH]; intros [|y b]; cbn; try (split; congruence).
  rewrite andb_true_iff, N.eqb_eq, IH. split.
  - intros [-> ->]. reflexivity.
  - intros H. injection H. auto.
Qed.

(** C1: for every valid address (every string of it well-formed, the
    service URL free to hold '?', '&' or '%') and a decimal port, the
    parameters the server reads from the query of the URL that
    [createReturnUrl] returns give back addressId, conversationId, userId
    and channelId as they were, and [executePayment]'s extra
    [decodeURIComponent] gives back the service URL unit for unit; so the
    variables [executePayment] hands to its callback are the original
    ones. *)
Theorem correlation_roundtrip configuration a escaping :
  valid_address a = true ->
  decimal_port (PORT configuration) = true ->
  exists returnUrl,
    createReturnUrl configuration a
    = ([ConsoleLog [Str (lit "Creating Return Url")]], Return returnUrl) /\
    get "addressId" (Node.queryParser escaping returnUrl) = Str (id a) /\
    get "conversationId" (Node.queryParser escaping returnUrl)
    = Str (conversation_id a) /\
    get "userId" (Node.queryParser escaping returnUrl) = Str (user_id a) /\
    get "channelId" (Node.queryParser escaping returnUrl)
    = Str (channelId a) /\
    decodeURIComponent (get "botServiceUrl" (Node.queryParser escaping returnUrl))
    = ret (serviceUrl a) /\
    executePayment (Node.queryParser escaping returnUrl)
    = ([ConsoleLog [Str (lit "Executing an Approved Payment")];
        PaypalExecute Undefined (executePaymentJson Undefined)
          {| env_botServiceUrl := serviceUrl a;
             env_channelId := Str (channelId a);
             env_addressId := Str (id a);
             env_conversationId := Str (conversation_id a);
             env_userId := Str (user_id a) |}],
       Return tt).
Proof.
  intros Hv Hp.
  destruct (Correlation.returnUrl_parameters configuration a escaping Hv Hp)
    as (returnUrl & e & Hurl & He & Hparams).
  exists returnUrl. rewrite Hparams.
  repeat split; try assumption; try reflexivity.
  - unfold decodeURIComponent.
    change (get "botServiceUrl" _) with (Str e). cbn [ToString].
    rewrite He. reflexivity.
  - unfold executePayment, decodeURIComponent.
    change (get "botServiceUrl" _) with (Str e). cbn [ToString].
    rewrite He. reflexivity.
Qed.

Lemma correlation_roundtrip_witness :
  valid_address scenario_address = true /\
  decimal_port (PORT (load_configuration [])) = true /\
  exists returnUrl,
    createReturnUrl (load_configuration []) scenario_address
    = ([ConsoleLog [Str (lit "Creating Return Url")]], Return returnUrl) /\
    get "addressId" (Node.queryParser true returnUrl) = Str (lit "a1") /\
    get "conversationId" (Node.queryParser true returnUrl) = Str (lit "c1") /\
    get "userId" (Node.queryParser true returnUrl) = Str (lit "u1") /\
    get "channelId" (Node.queryParser true returnUrl) = Str (lit "test") /\
    decodeURIComponent (get "botServiceUrl" (Node.queryParser true returnUrl))
    = ret (lit "http://svc/x?y=1&z=%41") /\
    executePayment (Node.queryParser true returnUrl)
    = ([ConsoleLog [Str (lit "Executing an Approved Payment")];
        PaypalExecute Undefined (executePaymentJson Undefined)
          {| env_botServiceUrl := lit "http://svc/x?y=1&z=%41";
             env_channelId := Str (lit "test");
             env_addressId := Str (lit "a1");
             env_conversationId := Str (lit "c1");
             env_userId := Str (lit "u1") |}],
       Return tt).
Proof.
  split; [reflexivity|]. split; [reflexivity|].
  apply (correlation_roundtrip (load_configuration []) scenario_address true);
    reflexivity.
Defined.

(** ** Missing fields *)

Lemma absent_get k o : absent k o = true -> get k o = Undefined.
Proof. unfold absent, get. now destruct (lookup (lit k) o). Qed.

Lemma decodeURIComponent_absent parameters :
  absent "botServiceUrl" parameters = true ->
  decodeURIComponent (get "botServiceUrl" parameters) = ret (lit "undefined").
Proof. intros H. rewrite (absent_get _ _ H). reflexivity. Qed.

(** C2, as the code has it: on a callback parameter map in which
    conversationId, userId, channelId or botServiceUrl is absent, and on
    which [decodeURIComponent] of botServiceUrl does not throw
    (it does not when botServiceUrl is absent: [undefined] decodes to the
    string "undefined"), [executePayment] reports no missing field.  Each
    absent field is read as [undefined], the execute call is issued with
    these values, and when the provider accepts, the confirmation goes to
    the partially-populated address they make. *)
Theorem executePayment_absent_field parameters s :
  absent "conversationId" parameters || absent "userId" parameters
  || absent "channelId" parameters || absent "botServiceUrl" parameters = true ->
  decodeURIComponent (get "botServiceUrl" parameters) = ret s ->
  exists env,
    executePayment parameters
    = ([ConsoleLog [Str (lit "Executing an Approved Payment")];
        PaypalExecute (get "paymentId" parameters)
          (executePaymentJson (get "PayerID" parameters)) env],
       Return tt) /\
    (absent "conversationId" parameters = true ->
     env_conversationId env = Undefined) /\
    (absent "userId" parameters = true -> env_userId env = Undefined) /\
    (absent "channelId" parameters = true -> env_channelId env = Undefined) /\
    (absent "botServiceUrl" parameters = true ->
     env_botServiceUrl env = lit "undefined") /\
    (env_conversationId env = Undefined \/ env_userId env = Undefined \/
     env_channelId env = Undefined \/ env_botServiceUrl env = lit "undefined") /\
    forall p : provider,
      truthy (fst (execute_answer p (get "paymentId" parameters)
                     (executePaymentJson (get "PayerID" parameters)))) = false ->
      exists m,
        bot_sends (timeline p (executePayment parameters)) = [m] /\
        prop "channelId" (msg_address m) = Some (env_channelId env) /\
        Node.opt_bind (prop "user" (msg_address m)) (prop "id")
        = Some (env_userId env) /\
        Node.opt_bind (prop "conversation" (msg_address m)) (prop "id")
        = Some (env_conversationId env) /\
        prop "serviceUrl" (msg_address m) = Some (Str (env_botServiceUrl env)).
Proof.
  intros Habsent Hdec.
  assert (Hs : URI.Decode (ToString (get "botServiceUrl" parameters)) = Some s).
  { unfold decodeURIComponent, or_URIError, ret, throw in Hdec.
    destruct (URI.Decode (ToString (get "botServiceUrl" parameters)));
      [|discriminate].
    injection Hdec as <-. reflexivity. }
  assert (Hu : absent "botServiceUrl" parameters = true -> s = lit "undefined").
  { intros H. rewrite (absent_get _ _ H) in Hs.
    assert (E : URI.Decode (ToString Undefined) = Some (lit "undefined"))
      by reflexivity.
    rewrite E in Hs. congruence. }
  eexists. split; [|split; [|split; [|split; [|split; [|split]]]]].
  - unfold executePayment, decodeURIComponent. rewrite Hs. reflexivity.
  - cbn [env_conversationId]. apply absent_get.
  - cbn [env_userId]. apply absent_get.
  - cbn [env_channelId]. apply absent_get.
  - cbn [env_botServiceUrl]. exact Hu.
  - cbn [env_conversationId env_userId env_channelId env_botServiceUrl].
    destruct (absent "conversationId" parameters) eqn:A1;
      [left; now apply absent_get|].
    destruct (absent "userId" parameters) eqn:A2;
      [right; left; now apply absent_get|].
    destruct (absent "channelId" parameters) eqn:A3;
      [right; right; left; now apply absent_get|].
    right; right; right. apply Hu. exact Habsent.
  - intros p Hok. unfold executePayment, decodeURIComponent. rewrite Hs.
    unfold timeline.
    cbn [or_URIError bind ret console_log emit app fst flat_map callback].
    destruct (execute_answer p (get "paymentId" parameters)
                (executePaymentJson (get "PayerID" parameters)))
      as [error payment].
    cbn [fst] in Hok. unfold executePayment_callback. rewrite Hok.
    eexists. repeat split.
Qed.

Lemma executePayment_absent_field_witness :
  absent "userId" (params request_without_userId) = true /\
  decodeURIComponent (get "botServiceUrl" (params request_without_userId))
  = ret (lit "http://svc") /\
  exists env,
    executePayment (params request_without_userId)
    = ([ConsoleLog [Str (lit "Executing an Approved Payment")];
        PaypalExecute (Str (lit "PAY-1")) (executePaymentJson (Str (lit "P1")))
          env],
       Return tt) /\
    env_userId env = Undefined.
Proof.
  split; [reflexivity|]. split; [reflexivity|].
  destruct (executePayment_absent_field (params request_without_userId)
              (lit "http://svc") eq_refl eq_refl)
    as (env & Hrun & _ & Hu & _).
  exists env. split; [exact Hrun | exact (Hu eq_refl)].
Defined.

(** C2, as the claim states it, fails: on a callback without userId the
    specification's [decode] answers MissingField, while [executePayment]
    returns normally, issues the execute call with [userId] undefined, and
    on success the message goes to an address whose user is undefined. *)
Lemma executePayment_without_userId :
  absent "userId" (params request_without_userId) = true /\
  Spec.decode (params request_without_userId) = inl Spec.MissingField /\
  snd (executePayment (params request_without_userId)) = Return tt /\
  bot_sends (timeline approving (executePayment (params request_without_userId)))
  = [ {| msg_address :=
           reply_address (Str (lit "test")) Undefined (Str (lit "c1"))
             (lit "http://svc");
         msg_text := lit "Thanks for your payment!" |} ] /\
  List.map (fun m => Node.opt_bind (prop "user" (msg_address m)) (prop "id"))
    (bot_sends (timeline approving
                  (executePayment (params request_without_userId))))
  = [Some Undefined] /\
  List.map (fun m => prop "channelId" (msg_address m))
    (bot_sends (timeline approving
                  (executePayment (params request_without_userId))))
  = [Some (Str (lit "test"))].
Proof. repeat split. Qed.

(** ** The dialog *)

Lemma createAndSendPayment_logs configuration session :
  exists evs r,
    createAndSendPayment configuration session
    = (ConsoleLog [Str (lit "Creating Payment")] :: evs, r).
Proof.
  unfold createAndSendPayment, console_log, emit.
  cbn [bind app].
  match goal with
  | |- context [let (_, _) := ?m in _] => destruct m as [evs r]
  end.
  now exists evs, r.
Qed.

(** C3, as the code has it: in the second step of listFines, a response
    whose entity is 'Cancel' ends the flow with no side effect, and every
    other response, 'Pay fine' or anything else, runs
    [createAndSendPayment]; so the step is without effect exactly when the
    entity is 'Cancel'. *)
Theorem listFines_2_pays_unless_Cancel configuration session results :
  listFines_2 configuration session results
  = (if str_eqb (entity (response results)) (lit "Cancel")
     then ([], Return tt)
     else createAndSendPayment configuration session) /\
  (fst (listFines_2 configuration session results) = []
   <-> entity (response results) = lit "Cancel").
Proof.
  split; [reflexivity|].
  unfold listFines_2. rewrite <- str_eqb_eq.
  destruct (str_eqb (entity (response results)) (lit "Cancel")).
  - split; reflexivity.
  - destruct (createAndSendPayment_logs configuration session)
      as (evs & r & ->).
    split; discriminate.
Qed.

(** C3, as the claim states it, fails: a response that is neither
    'Pay fine' nor 'Cancel' does not end the flow without effect; the
    payment is created. *)
Lemma listFines_2_other_choice :
  str_eqb (lit "Maybe later") (lit "Pay fine") = false /\
  str_eqb (lit "Maybe later") (lit "Cancel") = false /\
  listFines_2 default_configuration scenario_session
    {| response := {| entity := lit "Maybe later" |} |}
  = ([ConsoleLog [Str (lit "Creating Payment")];
      ConsoleLog [Str (lit "Creating Return Url")];
      PaypalCreate
        (createPaymentJson
           (Str (lit "http://localhost:3978/approvalComplete?addressId=a1&conversationId=c1&userId=u1&channelId=test&botServiceUrl=http%253A%252F%252Fsvc%252Fx%253Fy%253D1%2526z%253D%252541"))
           (Str (lit "http://localhost")))
        scenario_session],
     Return tt).
Proof. repeat split. Qed.

(** ** The approval link *)

Lemma send_approval_links_sends l :
  send_approval_links l
  = (List.map (fun x => SessionSend (lit "Please pay your fine: " ++ href x))
       (filter is_approval l),
     Return tt).
Proof.
  induction l as [|x l IH]; [reflexivity|].
  cbn [send_approval_links filter List.map]. rewrite IH.
  unfold is_approval. destruct (str_eqb (rel x) (lit "approval_url")); reflexivity.
Qed.

(** C4, as the code has it: when the create response holds no link whose
    rel is 'approval_url', the callback sends nothing to the session and
    completes normally; nothing is thrown and no error is reported. *)
Theorem createAndSendPayment_callback_no_link session error payment :
  truthy error = false ->
  forallb (fun l => negb (is_approval l)) (links payment) = true ->
  createAndSendPayment_callback session error payment = ([], Return tt).
Proof.
  intros He Hl. unfold createAndSendPayment_callback. rewrite He.
  rewrite send_approval_links_sends.
  replace (filter is_approval (links payment)) with (@nil link); [reflexivity|].
  induction (links payment) as [|x l IH]; [reflexivity|].
  cbn [forallb filter] in *. apply andb_true_iff in Hl as [Hx Hl].
  apply negb_true_iff in Hx. rewrite Hx. now apply IH.
Qed.

Lemma createAndSendPayment_callback_no_link_witness :
  truthy Null = false /\
  forallb (fun l => negb (is_approval l)) [self_link; execute_link] = true /\
  createAndSendPayment_callback scenario_session Null
    {| links := [self_link; execute_link] |} = ([], Return tt).
Proof.
  split; [reflexivity|]. split; [reflexivity|].
  apply (createAndSendPayment_callback_no_link scenario_session Null
           {| links := [self_link; execute_link] |}); reflexivity.
Defined.

(** C4, as the claim states it, fails: with a create response that has no
    approval link, the whole run sends no message and also raises nothing:
    it succeeds silently. *)
Lemma createAndSendPayment_silent :
  forallb (fun l => negb (is_approval l))
    (links (snd (create_answer without_approval_link Null))) = true /\
  snd (createAndSendPayment default_configuration scenario_session) = Return tt /\
  session_sends
    (timeline without_approval_link
       (createAndSendPayment default_configuration scenario_session)) = [] /\
  uncaught without_approval_link
    (createAndSendPayment default_configuration scenario_session) = [].
Proof. repeat split. Qed.

(** ** The confirmation *)

(** C5: when [executePayment] has issued the execute call and the provider
    answers without an error, exactly one message is sent through
    [bot.send], and the address it is sent to is read off the callback
    parameters alone: its channelId, its user's id, its conversation's id
    are the parameters channelId, userId and conversationId as read, and
    its serviceUrl is what botServiceUrl decodes to. *)
Theorem executePayment_success_message parameters (p : provider) :
  snd (executePayment parameters) = Return tt ->
  truthy (fst (execute_answer p (get "paymentId" parameters)
                 (executePaymentJson (get "PayerID" parameters)))) = false ->
  exists s m,
    URI.Decode (ToString (get "botServiceUrl" parameters)) = Some s /\
    bot_sends (timeline p (executePayment parameters)) = [m] /\
    msg_text m = lit "Thanks for your payment!" /\
    prop "channelId" (msg_address m) = Some (get "channelId" parameters) /\
    Node.opt_bind (prop "user" (msg_address m)) (prop "id")
    = Some (get "userId" parameters) /\
    Node.opt_bind (prop "conversation" (msg_address m)) (prop "id")
    = Some (get "conversationId" parameters) /\
    prop "serviceUrl" (msg_address m) = Some (Str s) /\
    msg_address m
    = Obj [
        (lit "channelId", get "channelId" parameters);
        (lit "user", Obj [(lit "id", get "userId" parameters);
                          (lit "name", get "userId" parameters)]);
        (lit "conversation", Obj [(lit "id", get "conversationId" parameters)]);
        (lit "bot", Obj [(lit "id", Str (lit "paybot"));
                         (lit "name", Str (lit "paybot"))]);
        (lit "serviceUrl", Str s);
        (lit "useAuth", Bool false)
      ].
Proof.
  unfold executePayment, decodeURIComponent.
  destruct (URI.Decode (ToString (get "botServiceUrl" parameters))) as [s|];
    [|discriminate].
  intros _ Hok. exists s. eexists. split; [reflexivity|].
  unfold timeline. cbn [or_URIError bind ret console_log emit app fst flat_map callback].
  destruct (execute_answer p (get "paymentId" parameters)
              (executePaymentJson (get "PayerID" parameters))) as [error payment].
  cbn [fst] in Hok. unfold executePayment_callback. rewrite Hok.
  repeat split.
Qed.

Lemma executePayment_success_message_witness :
  snd (executePayment (params request_complete)) = Return tt /\
  truthy (fst (execute_answer approving (get "paymentId" (params request_complete))
                 (executePaymentJson (get "PayerID" (params request_complete)))))
  = false /\
  exists s m,
    URI.Decode (ToString (get "botServiceUrl" (params request_complete))) = Some s /\
    bot_sends (timeline approving (executePayment (params request_complete))) = [m] /\
    msg_text m = lit "Thanks for your payment!" /\
    prop "channelId" (msg_address m) = Some (Str (lit "test")) /\
    Node.opt_bind (prop "user" (msg_address m)) (prop "id")
    = Some (Str (lit "u1")) /\
    Node.opt_bind (prop "conversation" (msg_address m)) (prop "id")
    = Some (Str (lit "c1")) /\
    prop "serviceUrl" (msg_address m) = Some (Str s) /\
    msg_address m
    = Obj [
        (lit "channelId", Str (lit "test"));
        (lit "user", Obj [(lit "id", Str (lit "u1"));
                          (lit "name", Str (lit "u1"))]);
        (lit "conversation", Obj [(lit "id", Str (lit "c1"))]);
        (lit "bot", Obj [(lit "id", Str (lit "paybot"));
                         (lit "name", Str (lit "paybot"))]);
        (lit "serviceUrl", Str s);
        (lit "useAuth", Bool false)
      ].
Proof.
  split; [reflexivity|]. split; [reflexivity|].
  apply (executePayment_success_message (params request_complete) approving);
    reflexivity.
Defined.

(** ** The payment requests *)

(** C6: the total of the execute request equals the total of the create
    request, whatever the payer and the URLs, and both equal the sum of
    price times quantity over the items of the create request, written with
    exactly two decimal places: "1.00". *)
Theorem execute_total_matches_create payerId returnUrl cancelUrl :
  transaction_total (executePaymentJson payerId)
  = transaction_total (createPaymentJson returnUrl cancelUrl) /\
  transaction_total (createPaymentJson returnUrl cancelUrl)
  = Node.opt_bind (transaction_items (createPaymentJson returnUrl cancelUrl))
      Spec.total /\
  transaction_total (createPaymentJson returnUrl cancelUrl)
  = Some (Str (lit "1.00")).
Proof. repeat split. Qed.

(** C8: whatever the two URLs, [createPaymentJson] returns an object with
    intent "sale", payer.payment_method "paypal", redirect_urls made of the
    two URLs given, and exactly one transaction, which holds the item list,
    the amount with its total as a fixed-point decimal string, and the
    description.  It is a total function: there is no error path. *)
Theorem createPaymentJson_shape returnUrl cancelUrl :
  prop "intent" (createPaymentJson returnUrl cancelUrl)
  = Some (Str (lit "sale")) /\
  Node.opt_bind (prop "payer" (createPaymentJson returnUrl cancelUrl))
    (prop "payment_method") = Some (Str (lit "paypal")) /\
  prop "redirect_urls" (createPaymentJson returnUrl cancelUrl)
  = Some (Obj [(lit "return_url", returnUrl); (lit "cancel_url", cancelUrl)]) /\
  prop "transactions" (createPaymentJson returnUrl cancelUrl)
  = Some (Arr [Obj [
      (lit "item_list", Obj [
        (lit "items", Arr [Obj [
          (lit "name", Str (lit "Fine"));
          (lit "sku", Str (lit "ParkingFine"));
          (lit "price", Str (lit "1.00"));
          (lit "currency", Str (lit "USD"));
          (lit "quantity", Num 1)]])]);
      (lit "amount", Obj [
        (lit "currency", Str (lit "USD"));
        (lit "total", Str (lit "1.00"))]);
      (lit "description", Str (lit "This is your fine. Please pay it :3"))]]) /\
  exists total,
    transaction_total (createPaymentJson returnUrl cancelUrl) = Some (Str total) /\
    Spec.parse_fixed2 total = Some 100 /\
    Spec.format_fixed2 100 = total.
Proof.
  repeat split. exists (lit "1.00"). repeat split.
Qed.

(** C9: [createPaymentJson] is deterministic: on structurally equal URLs
    it returns structurally equal objects. *)
Theorem createPaymentJson_deterministic returnUrl cancelUrl returnUrl' cancelUrl' :
  deep_equal returnUrl returnUrl' = true ->
  deep_equal cancelUrl cancelUrl' = true ->
  deep_equal (createPaymentJson returnUrl cancelUrl)
             (createPaymentJson returnUrl' cancelUrl') = true.
Proof.
  intros Hr Hc. unfold createPaymentJson.
  cbn -[lit]. rewrite Hr, Hc. reflexivity.
Qed.

Lemma createPaymentJson_deterministic_witness :
  deep_equal (Str (lit "http://localhost:3978/approvalComplete?addressId=a1"))
             (Str (lit "http://localhost:3978/approvalComplete?addressId=a1")) = true /\
  deep_equal (Str (lit "http://localhost")) (Str (lit "http://localhost")) = true /\
  deep_equal
    (createPaymentJson
       (Str (lit "http://localhost:3978/approvalComplete?addressId=a1"))
       (Str (lit "http://localhost")))
    (createPaymentJson
       (Str (lit "http://localhost:3978/approvalComplete?addressId=a1"))
       (Str (lit "http://localhost"))) = true.
Proof.
  split; [reflexivity|]. split; [reflexivity|].
  apply (createPaymentJson_deterministic
           (Str (lit "http://localhost:3978/approvalComplete?addressId=a1"))
           (Str (lit "http://localhost"))
           (Str (lit "http://localhost:3978/approvalComplete?addressId=a1"))
           (Str (lit "http://localhost"))); reflexivity.
Defined.

(** ** The callback endpoint *)

(** C7, as the code has it: for every request whose botServiceUrl
    parameter decodes (or is absent), the handler of approvalComplete sends
    200, once, in its own run, right after the execute call is issued and
    before the provider has answered; so it does whatever the provider's
    answer is. *)
Theorem approvalComplete_sends_200 req (p : provider) s :
  URI.Decode (ToString (get "botServiceUrl" (params req))) = Some s ->
  approvalComplete req
  = ([ConsoleLog [Str (lit "User approved transaction")];
      ConsoleLog [Str (lit "Executing an Approved Payment")];
      PaypalExecute (get "paymentId" (params req))
        (executePaymentJson (get "PayerID" (params req)))
        {| env_botServiceUrl := s;
           env_channelId := get "channelId" (params req);
           env_addressId := get "addressId" (params req);
           env_conversationId := get "conversationId" (params req);
           env_userId := get "userId" (params req) |};
      ResSend 200],
     Return tt) /\
  res_sends (timeline p (approvalComplete req)) = [200].
Proof.
  intros Hs.
  assert (Hrun : approvalComplete req
                 = ([ConsoleLog [Str (lit "User approved transaction")];
                     ConsoleLog [Str (lit "Executing an Approved Payment")];
                     PaypalExecute (get "paymentId" (params req))
                       (executePaymentJson (get "PayerID" (params req)))
                       {| env_botServiceUrl := s;
                          env_channelId := get "channelId" (params req);
                          env_addressId := get "addressId" (params req);
                          env_conversationId := get "conversationId" (params req);
                          env_userId := get "userId" (params req) |};
                     ResSend 200],
                    Return tt)).
  { unfold approvalComplete, executePayment, decodeURIComponent.
    rewrite Hs. reflexivity. }
  split; [exact Hrun|].
  rewrite Hrun. unfold timeline.
  cbn [fst flat_map callback app ret].
  destruct (execute_answer p (get "paymentId" (params req))
              (executePaymentJson (get "PayerID" (params req)))) as [error payment].
  unfold executePayment_callback.
  destruct (truthy error).
  - destruct (prop "response" error); reflexivity.
  - reflexivity.
Qed.

Lemma approvalComplete_sends_200_witness :
  URI.Decode (ToString (get "botServiceUrl" (params request_complete)))
  = Some (lit "http://svc") /\
  res_sends (timeline refusing (approvalComplete request_complete)) = [200].
Proof.
  split; [reflexivity|].
  apply (approvalComplete_sends_200 request_complete refusing (lit "http://svc")).
  reflexivity.
Defined.

(** C7, as the claim states it, fails: a request whose botServiceUrl does
    not decode makes [executePayment] throw a URIError before the handler
    reaches [res.send(200)]; the handler sends no 200. *)
Lemma approvalComplete_malformed :
  get "botServiceUrl" (params request_malformed) = Str (lit "%") /\
  approvalComplete request_malformed
  = ([ConsoleLog [Str (lit "User approved transaction")];
      ConsoleLog [Str (lit "Executing an Approved Payment")]],
     Throw URIError) /\
  res_sends (timeline approving (approvalComplete request_malformed)) = [] /\
  res_sends (timeline refusing (approvalComplete request_malformed)) = [].
Proof. repeat split. Qed.

(** ** The return URL *)

Lemma url_format_prefix configuration q u :
  Node.url_format (urlObject configuration q) = Some u ->
  exists search,
    u = lit "http://localhost"
        ++ (if truthy (PORT configuration)
            then lit ":" ++ ToString (PORT configuration) else [])
        ++ lit "/approvalComplete" ++ search.
Proof.
  unfold Node.url_format, urlObject.
  cbn [Node.query Node.protocol Node.hostname Node.port Node.pathname].
  destruct (Node.stringify q) as [query|]; [|discriminate].
  cbn [Node.opt_bind]. intros H. injection H as <-.
  exists (Node.replace_first_hash
            (if Node.nonempty query then lit "?" ++ query else [])).
  destruct (truthy (PORT configuration)); cbn -[Node.replace_first_hash];
    rewrite <- ?app_assoc; reflexivity.
Qed.

(** C10: the URL object of [createReturnUrl] has protocol 'http', hostname
    'localhost', pathname 'approvalComplete' and the configured PORT, so
    every URL it returns starts with http://localhost, the port and
    /approvalComplete; the configured HOST is never used: changing it
    changes nothing. *)
Theorem createReturnUrl_localhost configuration a returnUrl :
  snd (createReturnUrl configuration a) = Return returnUrl ->
  (forall q,
     Node.protocol (urlObject configuration q) = lit "http" /\
     Node.hostname (urlObject configuration q) = lit "localhost" /\
     Node.pathname (urlObject configuration q) = lit "approvalComplete" /\
     Node.port (urlObject configuration q) = PORT configuration) /\
  (exists search,
     returnUrl = lit "http://localhost"
                 ++ (if truthy (PORT configuration)
                     then lit ":" ++ ToString (PORT configuration) else [])
                 ++ lit "/approvalComplete" ++ search) /\
  (forall host,
     createReturnUrl (with_HOST host configuration) a
     = createReturnUrl configuration a).
Proof.
  intros H. split; [|split].
  - intros q. repeat split.
  - revert H. unfold createReturnUrl, encodeURIComponent.
    destruct (URI.Encode (ToString (Str (serviceUrl a)))) as [e|];
      [|discriminate].
    cbn [or_URIError bind ret console_log emit app].
    destruct (Node.url_format (urlObject configuration (queryObject a e)))
      as [u|] eqn:E; [|discriminate].
    cbn. intros H. injection H as <-.
    exact (url_format_prefix _ _ _ E).
  - intros host. reflexivity.
Qed.

Lemma createReturnUrl_localhost_witness :
  snd (createReturnUrl default_configuration scenario_address)
  = Return (lit "http://localhost:3978/approvalComplete?addressId=a1&conversationId=c1&userId=u1&channelId=test&botServiceUrl=http%253A%252F%252Fsvc%252Fx%253Fy%253D1%2526z%253D%252541") /\
  createReturnUrl (with_HOST (Str (lit "bot.example.org")) default_configuration)
    scenario_address
  = createReturnUrl default_configuration scenario_address.
Proof.
  split; [reflexivity|].
  apply (createReturnUrl_localhost default_configuration scenario_address
           (lit "http://localhost:3978/approvalComplete?addressId=a1&conversationId=c1&userId=u1&channelId=test&botServiceUrl=http%253A%252F%252Fsvc%252Fx%253Fy%253D1%2526z%253D%252541")).
  reflexivity.
Defined.

(** * Further facts: when [createReturnUrl] returns, and what it returns *)
Module Flow_facts.
Import URI URI_facts Node_facts.

Lemma Encode_unescaped x :
  forallb uriUnescaped x = true -> Encode x = Some x.
Proof.
  induction x as [|c x IH]; [reflexivity|].
  cbn [forallb Encode]. rewrite andb_true_iff. intros [Hc Hx].
  rewrite Hc, IH by assumption. reflexivity.
Qed.

Lemma unescaped_escaped x :
  forallb uriUnescaped x = true -> forallb escaped_char x = true.
Proof.
  induction x as [|c x IH]; [reflexivity|].
  cbn [forallb]. rewrite !andb_true_iff. intros [Hc Hx].
  split; [unfold escaped_char; now rewrite Hc | now apply IH].
Qed.

(** A value made of unescaped characters reads back as it is. *)
Lemma qs_decode_unescaped b x :
  forallb uriUnescaped x = true ->
  Node.qs_decode (Node.escaped_rest b x) = x.
Proof.
  intros Hx. pose proof (unescaped_escaped x Hx) as He.
  destruct (Encode_Decode_escaped x (escaped_well_formed x He))
    as (e & Ee & _ & De).
  rewrite Encode_unescaped in Ee by assumption. injection Ee as <-.
  now apply qs_decode_escaped.
Qed.



(** The return URL of a valid address, in full. *)
Lemma createReturnUrl_valid configuration a :
  valid_address a = true ->
  exists ea ec eu eh e eb,
    (forallb escaped_char ea = true /\ forallb escaped_char ec = true /\
     forallb escaped_char eu = true /\ forallb escaped_char eh = true /\
     forallb escaped_char eb = true) /\
    (forall b, Decode (Node.escaped_rest b ea) = Some (id a)) /\
    (forall b, Decode (Node.escaped_rest b ec) = Some (conversation_id a)) /\
    (forall b, Decode (Node.escaped_rest b eu) = Some (user_id a)) /\
    (forall b, Decode (Node.escaped_rest b eh) = Some (channelId a)) /\
    (forall b, Decode (Node.escaped_rest b eb) = Some e) /\
    Decode e = Some (serviceUrl a) /\
    createReturnUrl configuration a
    = ([ConsoleLog [Str (lit "Creating Return Url")]],
       Return (return_prefix configuration
               ++ 63 :: correlation_query ea ec eu eh eb)).
Proof.
  intros Hv. unfold valid_address in Hv.
  repeat (apply andb_true_iff in Hv as [Hv ?]).
  destruct (Encode_Decode_escaped (id a)) as (ea & Ea & Sa & Da); [assumption|].
  destruct (Encode_Decode_escaped (conversation_id a)) as (ec & Ec & Sc & Dc);
    [assumption|].
  destruct (Encode_Decode_escaped (user_id a)) as (eu & Eu & Su & Du);
    [assumption|].
  destruct (Encode_Decode_escaped (channelId a)) as (eh & Eh & Sh & Dh);
    [assumption|].
  destruct (Encode_Decode_escaped (serviceUrl a)) as (e & Ee & Se & De);
    [assumption|].
  destruct (Encode_Decode_escaped e) as (eb & Eb & Sb & Db);
    [now apply escaped_well_formed|].
  exists ea, ec, eu, eh, e, eb.
  repeat split; try assumption; [exact (De false)|].
  unfold createReturnUrl, encodeURIComponent. cbn [ToString].
  rewrite Ee. cbn [or_URIError bind ret console_log emit app].
  erewrite url_format_urlObject;
    [reflexivity
    | exact (stringify_queryObject_Encode a e ea ec eu eh eb
               ltac:(assumption) ltac:(assumption) ltac:(assumption)
               ltac:(assumption) (escaped_well_formed e Se)
               Ea Ec Eu Eh Eb)
    | reflexivity
    | exact (five_no_hash ea ec eu eh eb Sa Sc Su Sh Sb)].
Qed.




(** [createReturnUrl] logs one line, whether it returns or throws. *)
Lemma createReturnUrl_events configuration a :
  fst (createReturnUrl configuration a)
  = [ConsoleLog [Str (lit "Creating Return Url")]].
Proof.
  unfold createReturnUrl, encodeURIComponent.
  destruct (Encode (ToString (Str (serviceUrl a)))) as [e|]; [|reflexivity].
  cbn [or_URIError bind ret console_log emit app].
  destruct (Node.url_format (urlObject configuration (queryObject a e)));
    reflexivity.
Qed.


Lemma return_prefix_plain configuration :
  decimal_port (PORT configuration) = true ->
  Forall (fun c => Node.autoEscape c = [c] /\ c <> 35 /\ c <> 63)
    (return_prefix configuration).
Proof.
  intros Hp. unfold return_prefix.
  repeat (apply Forall_app; split).
  - apply Forall_forall. intros c Hc. cbn in Hc.
    repeat (destruct Hc as [<- | Hc]; [repeat split; try lia; reflexivity|]).
    contradiction.
  - destruct (truthy (PORT configuration)); [|constructor].
    constructor; [repeat split; try lia; reflexivity|].
    apply forallb_Forall in Hp.
    eapply Forall_impl; [|exact Hp]. exact digit_plain.
  - apply Forall_forall. intros c Hc. cbn in Hc.
    repeat (destruct Hc as [<- | Hc]; [repeat split; try lia; reflexivity|]).
    contradiction.
Qed.

(** The eight fields of the provider's redirect, as [qs] reads them. *)
Lemma qs_parse_eight Xa Xc Xu Xh Xb Xp Xt Xy :
  forallb escaped_char Xa = true -> forallb escaped_char Xc = true ->
  forallb escaped_char Xu = true -> forallb escaped_char Xh = true ->
  forallb escaped_char Xb = true -> forallb escaped_char Xp = true ->
  forallb escaped_char Xt = true -> forallb escaped_char Xy = true ->
  Node.qs_parse
    (lit "addressId=" ++ Xa ++ lit "&conversationId=" ++ Xc
     ++ lit "&userId=" ++ Xu ++ lit "&channelId=" ++ Xh
     ++ lit "&botServiceUrl=" ++ Xb ++ lit "&paymentId=" ++ Xp
     ++ lit "&token=" ++ Xt ++ lit "&PayerID=" ++ Xy)
  = [ (lit "addressId", Str (Node.qs_decode Xa));
      (lit "conversationId", Str (Node.qs_decode Xc));
      (lit "userId", Str (Node.qs_decode Xu));
      (lit "channelId", Str (Node.qs_decode Xh));
      (lit "botServiceUrl", Str (Node.qs_decode Xb));
      (lit "paymentId", Str (Node.qs_decode Xp));
      (lit "token", Str (Node.qs_decode Xt));
      (lit "PayerID", Str (Node.qs_decode Xy)) ].
Proof.
  intros Ha Hc Hu Hh Hb Hp Ht Hy. unfold Node.qs_parse.
  change (lit "addressId=" ++ Xa ++ lit "&conversationId=" ++ Xc
          ++ lit "&userId=" ++ Xu ++ lit "&channelId=" ++ Xh
          ++ lit "&botServiceUrl=" ++ Xb ++ lit "&paymentId=" ++ Xp
          ++ lit "&token=" ++ Xt ++ lit "&PayerID=" ++ Xy)
    with ((lit "addressId" ++ 61 :: Xa) ++ 38 ::
          (lit "conversationId" ++ 61 :: Xc) ++ 38 ::
          (lit "userId" ++ 61 :: Xu) ++ 38 ::
          (lit "channelId" ++ 61 :: Xh) ++ 38 ::
          (lit "botServiceUrl" ++ 61 :: Xb) ++ 38 ::
          (lit "paymentId" ++ 61 :: Xp) ++ 38 ::
          (lit "token" ++ 61 :: Xt) ++ 38 ::
          (lit "PayerID" ++ 61 :: Xy)).
  rewrite !split_app, split_last
    by (apply field_Forall; solve [exact not_amp | lia | reflexivity | assumption]).
  cbn [firstn Node.parameterLimit fold_left].
  rewrite !parse_field by solve [reflexivity | assumption].
  reflexivity.
Qed.

Lemma eight_no_hash Xa Xc Xu Xh Xb Xp Xt Xy :
  forallb escaped_char Xa = true -> forallb escaped_char Xc = true ->
  forallb escaped_char Xu = true -> forallb escaped_char Xh = true ->
  forallb escaped_char Xb = true -> forallb escaped_char Xp = true ->
  forallb escaped_char Xt = true -> forallb escaped_char Xy = true ->
  Forall (fun c => c <> 35)
    (lit "addressId=" ++ Xa ++ lit "&conversationId=" ++ Xc
     ++ lit "&userId=" ++ Xu ++ lit "&channelId=" ++ Xh
     ++ lit "&botServiceUrl=" ++ Xb ++ lit "&paymentId=" ++ Xp
     ++ lit "&token=" ++ Xt ++ lit "&PayerID=" ++ Xy).
Proof.
  intros.
  repeat (apply Forall_app; split);
    first [ apply escaped_Forall; [exact not_hash | assumption]
          | apply no_hash_Forall; reflexivity ].
Qed.

Lemma escaped_rest_eight b ea ec eu eh eb p t y :
  Node.escaped_rest b
    (correlation_query ea ec eu eh eb
     ++ lit "&paymentId=" ++ p ++ lit "&token=" ++ t ++ lit "&PayerID=" ++ y)
  = lit "addressId=" ++ Node.escaped_rest b ea
    ++ lit "&conversationId=" ++ Node.escaped_rest b ec
    ++ lit "&userId=" ++ Node.escaped_rest b eu
    ++ lit "&channelId=" ++ Node.escaped_rest b eh
    ++ lit "&botServiceUrl=" ++ Node.escaped_rest b eb
    ++ lit "&paymentId=" ++ Node.escaped_rest b p
    ++ lit "&token=" ++ Node.escaped_rest b t
    ++ lit "&PayerID=" ++ Node.escaped_rest b y.
Proof.
  rewrite escaped_rest_app. unfold correlation_query.
  rewrite escaped_rest_five, !escaped_rest_app.
  replace (Node.escaped_rest b (lit "&paymentId=")) with (lit "&paymentId=")
    by (destruct b; reflexivity).
  replace (Node.escaped_rest b (lit "&token=")) with (lit "&token=")
    by (destruct b; reflexivity).
  replace (Node.escaped_rest b (lit "&PayerID=")) with (lit "&PayerID=")
    by (destruct b; reflexivity).
  rewrite <- !app_assoc. reflexivity.
Qed.

(** The parameters the server reads from the provider's redirect. *)
Lemma redirect_parameters configuration escaping ea ec eu eh eb p t y :
  decimal_port (PORT configuration) = true ->
  forallb escaped_char ea = true -> forallb escaped_char ec = true ->
  forallb escaped_char eu = true -> forallb escaped_char eh = true ->
  forallb escaped_char eb = true ->
  forallb uriUnescaped p = true -> forallb uriUnescaped t = true ->
  forallb uriUnescaped y = true ->
  Node.queryParser escaping
    (paypal_redirect
       (return_prefix configuration ++ 63 :: correlation_query ea ec eu eh eb)
       p t y)
  = [ (lit "addressId", Str (Node.qs_decode (Node.escaped_rest escaping ea)));
      (lit "conversationId", Str (Node.qs_decode (Node.escaped_rest escaping ec)));
      (lit "userId", Str (Node.qs_decode (Node.escaped_rest escaping eu)));
      (lit "channelId", Str (Node.qs_decode (Node.escaped_rest escaping eh)));
      (lit "botServiceUrl", Str (Node.qs_decode (Node.escaped_rest escaping eb)));
      (lit "paymentId", Str p);
      (lit "token", Str t);
      (lit "PayerID", Str y) ].
Proof.
  intros Hport Sa Sc Su Sh Sb Up Ut Uy.
  pose proof (eight_no_hash _ _ _ _ _ _ _ _
                (escaped_rest_escaped escaping _ Sa)
                (escaped_rest_escaped escaping _ Sc)
                (escaped_rest_escaped escaping _ Su)
                (escaped_rest_escaped escaping _ Sh)
                (escaped_rest_escaped escaping _ Sb)
                (escaped_rest_escaped escaping _ (unescaped_escaped _ Up))
                (escaped_rest_escaped escaping _ (unescaped_escaped _ Ut))
                (escaped_rest_escaped escaping _ (unescaped_escaped _ Uy)))
    as Hh.
  rewrite <- escaped_rest_eight in Hh.
  unfold paypal_redirect, Node.queryParser.
  rewrite <- app_assoc. cbn [app].
  rewrite getQuery_url; [| now apply return_prefix_plain | exact Hh].
  rewrite escaped_rest_eight. cbn [Node.nonempty lit app].
  change (Node.nonempty (_ :: _)) with true. cbv iota.
  rewrite qs_parse_eight
    by (first [ now apply escaped_rest_escaped
              | now apply escaped_rest_escaped, unescaped_escaped ]).
  rewrite (qs_decode_unescaped escaping p), (qs_decode_unescaped escaping t),
    (qs_decode_unescaped escaping y) by assumption.
  reflexivity.
Qed.

End Flow_facts.

(** * Further properties of the payment flow *)

Import Flow_facts.

Lemma executePayment_run parameters :
  executePayment parameters
  = match URI.Decode (ToString (get "botServiceUrl" parameters)) with
    | Some s =>
      ([ConsoleLog [Str (lit "Executing an Approved Payment")];
        PaypalExecute (get "paymentId" parameters)
          (executePaymentJson (get "PayerID" parameters))
          {| env_botServiceUrl := s;
             env_channelId := get "channelId" parameters;
             env_addressId := get "addressId" parameters;
             env_conversationId := get "conversationId" parameters;
             env_userId := get "userId" parameters |}],
       Return tt)
    | None =>
      ([ConsoleLog [Str (lit "Executing an Approved Payment")]], Throw URIError)
    end.
Proof.
  unfold executePayment, decodeURIComponent.
  destruct (URI.Decode (ToString (get "botServiceUrl" parameters))); reflexivity.
Qed.

Lemma truthy_response error :
  truthy error = true -> exists r, prop "response" error = Some r.
Proof. destruct error; cbn; try discriminate; eauto. Qed.

Lemma executePayment_callback_error env error payment :
  truthy error = true ->
  exists r,
    prop "response" error = Some r /\
    executePayment_callback env error payment
    = ([ConsoleLog [r]], Throw (Thrown error)).
Proof.
  intros H. destruct (truthy_response error H) as (r & Hr).
  exists r. split; [exact Hr|].
  unfold executePayment_callback. rewrite H, Hr. reflexivity.
Qed.

Lemma createAndSendPayment_valid configuration session :
  valid_address (message_address session) = true ->
  exists returnUrl,
    createReturnUrl configuration (message_address session)
    = ([ConsoleLog [Str (lit "Creating Return Url")]], Return returnUrl) /\
    createAndSendPayment configuration session
    = ([ConsoleLog [Str (lit "Creating Payment")];
        ConsoleLog [Str (lit "Creating Return Url")];
        PaypalCreate
          (createPaymentJson (Str returnUrl) (Str (lit "http://localhost")))
          session],
       Return tt).
Proof.
  intros Hv.
  destruct (createReturnUrl_valid configuration _ Hv)
    as (ea & ec & eu & eh & e & eb & _ & _ & _ & _ & _ & _ & _ & Hurl).
  eexists. split; [exact Hurl|].
  unfold createAndSendPayment. rewrite Hurl. reflexivity.
Qed.

(** X1: the whole flow keeps the correlation.  For a valid address and a
    decimal port, [createAndSendPayment] hands the provider one create
    request, whose redirect_urls.return_url is the return URL.  When the
    provider redirects to that URL with paymentId, token and PayerID
    appended, the handler of approvalComplete issues the execute call for
    that paymentId, with that PayerID as the payer_id of the request, and,
    the provider accepting, sends the one confirmation to an address whose
    channelId, user id, conversation id and serviceUrl are those the
    payment started from. *)
Theorem payment_flow_correlation configuration a escaping
    paymentId token PayerID (p : provider) :
  valid_address a = true ->
  decimal_port (PORT configuration) = true ->
  forallb URI.uriUnescaped paymentId = true ->
  forallb URI.uriUnescaped token = true ->
  forallb URI.uriUnescaped PayerID = true ->
  truthy (fst (execute_answer p (Str paymentId)
                 (executePaymentJson (Str PayerID)))) = false ->
  exists returnUrl createRequest executeRequest m,
    createAndSendPayment configuration {| message_address := a |}
    = ([ConsoleLog [Str (lit "Creating Payment")];
        ConsoleLog [Str (lit "Creating Return Url")];
        PaypalCreate createRequest {| message_address := a |}],
       Return tt) /\
    createRequest
    = createPaymentJson (Str returnUrl) (Str (lit "http://localhost")) /\
    Node.opt_bind (prop "redirect_urls" createRequest) (prop "return_url")
    = Some (Str returnUrl) /\
    provider_calls
      (fst (approvalComplete
              {| params := Node.queryParser escaping
                   (paypal_redirect returnUrl paymentId token PayerID) |}))
    = [PaypalExecute (Str paymentId) executeRequest
         {| env_botServiceUrl := serviceUrl a;
            env_channelId := Str (channelId a);
            env_addressId := Str (id a);
            env_conversationId := Str (conversation_id a);
            env_userId := Str (user_id a) |}] /\
    executeRequest = executePaymentJson (Str PayerID) /\
    prop "payer_id" executeRequest = Some (Str PayerID) /\
    bot_sends
      (timeline p
         (approvalComplete
            {| params := Node.queryParser escaping
                 (paypal_redirect returnUrl paymentId token PayerID) |}))
    = [m] /\
    msg_text m = lit "Thanks for your payment!" /\
    prop "channelId" (msg_address m) = Some (Str (channelId a)) /\
    Node.opt_bind (prop "user" (msg_address m)) (prop "id")
    = Some (Str (user_id a)) /\
    Node.opt_bind (prop "conversation" (msg_address m)) (prop "id")
    = Some (Str (conversation_id a)) /\
    prop "serviceUrl" (msg_address m) = Some (Str (serviceUrl a)).
Proof.
  intros Hv Hport Up Ut Uy Hok.
  destruct (createReturnUrl_valid configuration a Hv)
    as (ea & ec & eu & eh & e & eb & (Sa & Sc & Su & Sh & Sb)
        & Da & Dc & Du & Dh & Db & De & Hurl).
  exists (return_prefix configuration ++ 63 :: correlation_query ea ec eu eh eb).
  do 3 eexists.
  split.
  { unfold createAndSendPayment. cbn [message_address].
    rewrite Hurl. reflexivity. }
  split; [reflexivity|]. split; [reflexivity|].
  rewrite redirect_parameters by assumption.
  rewrite (qs_decode_escaped escaping ea (id a)),
          (qs_decode_escaped escaping ec (conversation_id a)),
          (qs_decode_escaped escaping eu (user_id a)),
          (qs_decode_escaped escaping eh (channelId a)),
          (qs_decode_escaped escaping eb e) by auto.
  unfold approvalComplete. cbn [params]. rewrite executePayment_run.
  change (get "botServiceUrl" _) with (Str e). cbn [ToString].
  rewrite De.
  change (get "paymentId" _) with (Str paymentId).
  change (get "PayerID" _) with (Str PayerID).
  change (get "channelId" _) with (Str (channelId a)).
  change (get "addressId" _) with (Str (id a)).
  change (get "conversationId" _) with (Str (conversation_id a)).
  change (get "userId" _) with (Str (user_id a)).
  split; [reflexivity|]. split; [reflexivity|]. split; [reflexivity|].
  unfold timeline.
  cbn [bind ret console_log emit app fst flat_map callback].
  destruct (execute_answer p (Str paymentId) (executePaymentJson (Str PayerID)))
    as [error payment].
  cbn [fst] in Hok. unfold executePayment_callback. rewrite Hok.
  repeat split.
Qed.

Lemma payment_flow_correlation_witness :
  exists returnUrl createRequest executeRequest m,
    createAndSendPayment default_configuration
      {| message_address := scenario_address |}
    = ([ConsoleLog [Str (lit "Creating Payment")];
        ConsoleLog [Str (lit "Creating Return Url")];
        PaypalCreate createRequest {| message_address := scenario_address |}],
       Return tt) /\
    createRequest
    = createPaymentJson (Str returnUrl) (Str (lit "http://localhost")) /\
    Node.opt_bind (prop "redirect_urls" createRequest) (prop "return_url")
    = Some (Str returnUrl) /\
    provider_calls
      (fst (approvalComplete
              {| params := Node.queryParser true
                   (paypal_redirect returnUrl (lit "PAY-1") (lit "EC-1")
                      (lit "P1")) |}))
    = [PaypalExecute (Str (lit "PAY-1")) executeRequest
         {| env_botServiceUrl := lit "http://svc/x?y=1&z=%41";
            env_channelId := Str (lit "test");
            env_addressId := Str (lit "a1");
            env_conversationId := Str (lit "c1");
            env_userId := Str (lit "u1") |}] /\
    executeRequest = executePaymentJson (Str (lit "P1")) /\
    prop "payer_id" executeRequest = Some (Str (lit "P1")) /\
    bot_sends
      (timeline approving
         (approvalComplete
            {| params := Node.queryParser true
                 (paypal_redirect returnUrl (lit "PAY-1") (lit "EC-1")
                    (lit "P1")) |}))
    = [m] /\
    msg_text m = lit "Thanks for your payment!" /\
    prop "channelId" (msg_address m) = Some (Str (lit "test")) /\
    Node.opt_bind (prop "user" (msg_address m)) (prop "id")
    = Some (Str (lit "u1")) /\
    Node.opt_bind (prop "conversation" (msg_address m)) (prop "id")
    = Some (Str (lit "c1")) /\
    prop "serviceUrl" (msg_address m)
    = Some (Str (lit "http://svc/x?y=1&z=%41")).
Proof.
  apply (payment_flow_correlation default_configuration scenario_address true
           (lit "PAY-1") (lit "EC-1") (lit "P1") approving); reflexivity.
Defined.



(** X3: when [createReturnUrl] throws, as it does for a service URL with
    a lone surrogate, [createAndSendPayment] ends with that exception
    before it reaches the provider: its only events are the two log lines,
    no payment is created and nothing is sent to the session, whatever the
    provider would have answered. *)
Theorem createAndSendPayment_return_url_throws configuration session
    (p : provider) e :
  snd (createReturnUrl configuration (message_address session)) = Throw e ->
  createAndSendPayment configuration session
  = ([ConsoleLog [Str (lit "Creating Payment")];
      ConsoleLog [Str (lit "Creating Return Url")]],
     Throw e) /\
  provider_calls (timeline p (createAndSendPayment configuration session)) = [] /\
  session_sends (timeline p (createAndSendPayment configuration session)) = [].
Proof.
  intros Hthrow.
  assert (H : createAndSendPayment configuration session
              = ([ConsoleLog [Str (lit "Creating Payment")];
                  ConsoleLog [Str (lit "Creating Return Url")]],
                 Throw e)).
  { unfold createAndSendPayment.
    pose proof (createReturnUrl_events configuration (message_address session))
      as Hev.
    destruct (createReturnUrl configuration (message_address session))
      as [evs r]. cbn [fst snd] in Hev, Hthrow. subst evs r. reflexivity. }
  rewrite H. repeat split.
Qed.

Lemma createAndSendPayment_return_url_throws_witness :
  snd (createReturnUrl default_configuration broken_address) = Throw URIError /\
  createAndSendPayment default_configuration
    {| message_address := broken_address |}
  = ([ConsoleLog [Str (lit "Creating Payment")];
      ConsoleLog [Str (lit "Creating Return Url")]],
     Throw URIError) /\
  provider_calls
    (timeline approving
       (createAndSendPayment default_configuration
          {| message_address := broken_address |})) = [] /\
  session_sends
    (timeline approving
       (createAndSendPayment default_configuration
          {| message_address := broken_address |})) = [].
Proof.
  split; [reflexivity|].
  apply (createAndSendPayment_return_url_throws default_configuration
           {| message_address := broken_address |} approving URIError).
  reflexivity.
Defined.

(** X4: when the provider accepts the creation, the session receives one
    message per link whose rel is 'approval_url', in the order of the
    response, each "Please pay your fine: " followed by the href; the loop
    does not stop at the first one, and nothing is thrown. *)
Theorem createAndSendPayment_approval_messages configuration session
    (p : provider) :
  valid_address (message_address session) = true ->
  exists returnUrl,
    snd (createReturnUrl configuration (message_address session))
    = Return returnUrl /\
    (truthy (fst (create_answer p
                    (createPaymentJson (Str returnUrl)
                       (Str (lit "http://localhost"))))) = false ->
     session_sends (timeline p (createAndSendPayment configuration session))
     = List.map (fun l => lit "Please pay your fine: " ++ href l)
         (filter is_approval
            (links (snd (create_answer p
                           (createPaymentJson (Str returnUrl)
                              (Str (lit "http://localhost"))))))) /\
     uncaught p (createAndSendPayment configuration session) = []).
Proof.
  intros Hv.
  destruct (createAndSendPayment_valid configuration session Hv)
    as (returnUrl & Hurl & Hrun).
  exists returnUrl. split; [now rewrite Hurl|].
  intros Hok. rewrite Hrun. unfold timeline, uncaught, thrown.
  cbn [fst snd flat_map callback app ret].
  destruct (create_answer p
              (createPaymentJson (Str returnUrl) (Str (lit "http://localhost"))))
    as [error payment].
  cbn [fst snd] in *. unfold createAndSendPayment_callback. rewrite Hok.
  rewrite send_approval_links_sends. cbn [fst snd].
  rewrite !app_nil_r. split; [|reflexivity].
  induction (filter is_approval (links payment)) as [|l ls IH];
    [reflexivity|].
  cbn [List.map session_sends flat_map app] in *. now rewrite IH.
Qed.

Lemma createAndSendPayment_approval_messages_witness :
  session_sends
    (timeline two_approval_links
       (createAndSendPayment default_configuration scenario_session))
  = [lit "Please pay your fine: " ++ href approval_link;
     lit "Please pay your fine: " ++ href approval_link].
Proof.
  destruct (createAndSendPayment_approval_messages default_configuration
              scenario_session two_approval_links eq_refl)
    as (returnUrl & _ & H).
  exact (proj1 (H eq_refl)).
Defined.

(** X5: when the provider refuses the creation, the callback throws the
    provider's error, which nobody catches, and the session is sent
    nothing: the user gets no reply. *)
Theorem createAndSendPayment_creation_refused configuration session
    (p : provider) :
  valid_address (message_address session) = true ->
  exists returnUrl,
    snd (createReturnUrl configuration (message_address session))
    = Return returnUrl /\
    (truthy (fst (create_answer p
                    (createPaymentJson (Str returnUrl)
                       (Str (lit "http://localhost"))))) = true ->
     session_sends (timeline p (createAndSendPayment configuration session)) = [] /\
     uncaught p (createAndSendPayment configuration session)
     = [Thrown (fst (create_answer p
                       (createPaymentJson (Str returnUrl)
                          (Str (lit "http://localhost")))))]).
Proof.
  intros Hv.
  destruct (createAndSendPayment_valid configuration session Hv)
    as (returnUrl & Hurl & Hrun).
  exists returnUrl. split; [now rewrite Hurl|].
  intros Herr. rewrite Hrun. unfold timeline, uncaught, thrown.
  cbn [fst snd flat_map callback app ret].
  destruct (create_answer p
              (createPaymentJson (Str returnUrl) (Str (lit "http://localhost"))))
    as [error payment].
  cbn [fst snd] in *. unfold createAndSendPayment_callback. rewrite Herr.
  split; reflexivity.
Qed.

Lemma createAndSendPayment_creation_refused_witness :
  session_sends
    (timeline refusing_creation
       (createAndSendPayment default_configuration scenario_session)) = [] /\
  uncaught refusing_creation
    (createAndSendPayment default_configuration scenario_session)
  = [Thrown (Obj [(lit "httpStatusCode", Num 401)])].
Proof.
  destruct (createAndSendPayment_creation_refused default_configuration
              scenario_session refusing_creation eq_refl)
    as (returnUrl & _ & H).
  exact (H eq_refl).
Defined.

Lemma approvalComplete_run req s :
  URI.Decode (ToString (get "botServiceUrl" (params req))) = Some s ->
  approvalComplete req
  = ([ConsoleLog [Str (lit "User approved transaction")];
      ConsoleLog [Str (lit "Executing an Approved Payment")];
      PaypalExecute (get "paymentId" (params req))
        (executePaymentJson (get "PayerID" (params req)))
        {| env_botServiceUrl := s;
           env_channelId := get "channelId" (params req);
           env_addressId := get "addressId" (params req);
           env_conversationId := get "conversationId" (params req);
           env_userId := get "userId" (params req) |};
      ResSend 200],
     Return tt).
Proof.
  intros Hs. unfold approvalComplete. rewrite executePayment_run, Hs.
  reflexivity.
Qed.

(** X6: when the provider refuses the execution, the handler of
    approvalComplete has already answered 200; the callback then logs the
    error's response and throws the error, which nobody catches, and no
    confirmation is sent. *)
Theorem approvalComplete_execution_refused req (p : provider) s :
  URI.Decode (ToString (get "botServiceUrl" (params req))) = Some s ->
  truthy (fst (execute_answer p (get "paymentId" (params req))
                 (executePaymentJson (get "PayerID" (params req))))) = true ->
  res_sends (fst (approvalComplete req)) = [200] /\
  res_sends (timeline p (approvalComplete req)) = [200] /\
  bot_sends (timeline p (approvalComplete req)) = [] /\
  uncaught p (approvalComplete req)
  = [Thrown (fst (execute_answer p (get "paymentId" (params req))
                    (executePaymentJson (get "PayerID" (params req)))))].
Proof.
  intros Hs Herr. rewrite (approvalComplete_run req s Hs).
  unfold timeline, uncaught, thrown.
  cbn [fst snd flat_map callback app ret].
  destruct (execute_answer p (get "paymentId" (params req))
              (executePaymentJson (get "PayerID" (params req))))
    as [error payment].
  cbn [fst] in Herr. cbn [fst].
  destruct (executePayment_callback_error
              {| env_botServiceUrl := s;
                 env_channelId := get "channelId" (params req);
                 env_addressId := get "addressId" (params req);
                 env_conversationId := get "conversationId" (params req);
                 env_userId := get "userId" (params req) |}
              error payment Herr) as (r & _ & ->).
  repeat split.
Qed.

Lemma approvalComplete_execution_refused_witness :
  res_sends (timeline refusing (approvalComplete request_complete)) = [200] /\
  bot_sends (timeline refusing (approvalComplete request_complete)) = [] /\
  uncaught refusing (approvalComplete request_complete)
  = [Thrown (Obj [(lit "response",
                   Obj [(lit "name",
                         Str (lit "PAYMENT_NOT_APPROVED_FOR_EXECUTION"))])])].
Proof.
  apply (approvalComplete_execution_refused request_complete refusing
           (lit "http://svc")); reflexivity.
Defined.

(** X7: when the botServiceUrl of the callback does not decode, the
    URIError comes before the execute call: the payment is not executed,
    no confirmation is sent and the handler answers nothing. *)
Theorem approvalComplete_malformed_no_call req (p : provider) :
  URI.Decode (ToString (get "botServiceUrl" (params req))) = None ->
  approvalComplete req
  = ([ConsoleLog [Str (lit "User approved transaction")];
      ConsoleLog [Str (lit "Executing an Approved Payment")]],
     Throw URIError) /\
  provider_calls (timeline p (approvalComplete req)) = [] /\
  bot_sends (timeline p (approvalComplete req)) = [] /\
  res_sends (timeline p (approvalComplete req)) = [].
Proof.
  intros Hs.
  assert (H : approvalComplete req
              = ([ConsoleLog [Str (lit "User approved transaction")];
                  ConsoleLog [Str (lit "Executing an Approved Payment")]],
                 Throw URIError)).
  { unfold approvalComplete. rewrite executePayment_run, Hs. reflexivity. }
  rewrite H. repeat split.
Qed.

Lemma approvalComplete_malformed_no_call_witness :
  URI.Decode (ToString (get "botServiceUrl" (params request_malformed))) = None /\
  provider_calls (timeline approving (approvalComplete request_malformed)) = [].
Proof.
  split; [reflexivity|].
  apply (approvalComplete_malformed_no_call request_malformed approving).
  reflexivity.
Defined.

Lemma bot_sends_executePayment parameters (p : provider) :
  bot_sends (timeline p (executePayment parameters))
  = match URI.Decode (ToString (get "botServiceUrl" parameters)) with
    | Some s =>
      if truthy (fst (execute_answer p (get "paymentId" parameters)
                        (executePaymentJson (get "PayerID" parameters))))
      then []
      else [ {| msg_address :=
                  reply_address (get "channelId" parameters)
                    (get "userId" parameters)
                    (get "conversationId" parameters) s;
                msg_text := lit "Thanks for your payment!" |} ]
    | None => []
    end.
Proof.
  rewrite executePayment_run.
  destruct (URI.Decode (ToString (get "botServiceUrl" parameters))) as [s|];
    [|reflexivity].
  unfold timeline. cbn [fst flat_map callback app].
  destruct (execute_answer p (get "paymentId" parameters)
              (executePaymentJson (get "PayerID" parameters)))
    as [error payment].
  cbn [fst]. destruct (truthy error) eqn:Herr.
  - destruct (executePayment_callback_error
                {| env_botServiceUrl := s;
                   env_channelId := get "channelId" parameters;
                   env_addressId := get "addressId" parameters;
                   env_conversationId := get "conversationId" parameters;
                   env_userId := get "userId" parameters |}
                error payment Herr) as (r & _ & ->).
    reflexivity.
  - unfold executePayment_callback. rewrite Herr. reflexivity.
Qed.

(** X8: the confirmation depends on four parameters only.  Two callbacks
    that agree on channelId, userId, conversationId and botServiceUrl, and
    whose executions the provider accepts, lead to the same messages,
    whatever their addressId, paymentId and PayerID and whatever payment
    the provider returns: the decoded addressId is never used. *)
Theorem confirmation_ignores_other_parameters parameters parameters'
    (p p' : provider) :
  get "channelId" parameters = get "channelId" parameters' ->
  get "userId" parameters = get "userId" parameters' ->
  get "conversationId" parameters = get "conversationId" parameters' ->
  get "botServiceUrl" parameters = get "botServiceUrl" parameters' ->
  truthy (fst (execute_answer p (get "paymentId" parameters)
                 (executePaymentJson (get "PayerID" parameters)))) = false ->
  truthy (fst (execute_answer p' (get "paymentId" parameters')
                 (executePaymentJson (get "PayerID" parameters')))) = false ->
  bot_sends (timeline p (executePayment parameters))
  = bot_sends (timeline p' (executePayment parameters')).
Proof.
  intros Hc Hu Hv Hb Hok Hok'.
  rewrite !bot_sends_executePayment, Hok, Hok', Hc, Hu, Hv, Hb.
  reflexivity.
Qed.

Lemma confirmation_ignores_other_parameters_witness :
  get "addressId" (params request_complete)
  <> get "addressId" (params request_other_payment) /\
  bot_sends (timeline approving (executePayment (params request_complete)))
  = bot_sends (timeline two_approval_links
                 (executePayment (params request_other_payment))).
Proof.
  split; [discriminate|].
  apply (confirmation_ignores_other_parameters (params request_complete)
           (params request_other_payment) approving two_approval_links);
    reflexivity.
Defined.

(** X9: the port of the return URL comes from the environment: PORT when
    it is set and not empty, else port, else 3978.  It is never missing, so
    every return URL reads http://localhost:<port>/approvalComplete... *)
Theorem return_url_port env a returnUrl :
  snd (createReturnUrl (load_configuration env) a) = Return returnUrl ->
  truthy (PORT (load_configuration env)) = true /\
  PORT (load_configuration env)
  = (if truthy (get "PORT" env) then get "PORT" env
     else if truthy (get "port" env) then get "port" env
     else Num 3978) /\
  exists search,
    returnUrl = lit "http://localhost:"
                ++ ToString (PORT (load_configuration env))
                ++ lit "/approvalComplete" ++ search.
Proof.
  intros H.
  assert (Ht : truthy (PORT (load_configuration env)) = true).
  { cbn [load_configuration PORT]. unfold or_else.
    destruct (truthy (get "PORT" env)) eqn:E1; [exact E1|].
    destruct (truthy (get "port" env)) eqn:E2; [exact E2 | reflexivity]. }
  split; [exact Ht|]. split; [reflexivity|].
  revert H. unfold createReturnUrl, encodeURIComponent.
  destruct (URI.Encode (ToString (Str (serviceUrl a)))) as [e|];
    [|discriminate].
  cbn [or_URIError bind ret console_log emit app].
  destruct (Node.url_format (urlObject (load_configuration env) (queryObject a e)))
    as [u|] eqn:E; [|discriminate].
  cbn [or_URIError snd]. intros H. injection H as <-.
  destruct (url_format_prefix _ _ _ E) as (search & ->).
  exists search. rewrite Ht. rewrite <- !app_assoc. reflexivity.
Qed.

Lemma return_url_port_witness :
  PORT (load_configuration [(lit "PORT", Str []); (lit "port", Str (lit "8080"))])
  = Str (lit "8080") /\
  exists search,
    lit "http://localhost:8080/approvalComplete?addressId=a1&conversationId=c1&userId=u1&channelId=test&botServiceUrl=http%253A%252F%252Fsvc%252Fx%253Fy%253D1%2526z%253D%252541"
    = lit "http://localhost:"
      ++ ToString (PORT (load_configuration
                           [(lit "PORT", Str []); (lit "port", Str (lit "8080"))]))
      ++ lit "/approvalComplete" ++ search.
Proof.
  split; [reflexivity|].
  apply (return_url_port
           [(lit "PORT", Str []); (lit "port", Str (lit "8080"))]
           scenario_address
           (lit "http://localhost:8080/approvalComplete?addressId=a1&conversationId=c1&userId=u1&channelId=test&botServiceUrl=http%253A%252F%252Fsvc%252Fx%253Fy%253D1%2526z%253D%252541")).
  reflexivity.
Defined.

Lemma escaped_url_char e :
  forallb URI.escaped_char e = true -> forallb url_char e = true.
Proof.
  induction e as [|c e IH]; [reflexivity|].
  cbn [forallb]. rewrite !andb_true_iff. intros [Hc He].
  split; [unfold url_char; now rewrite Hc | now apply IH].
Qed.

Lemma digits_url_char s :
  forallb (URI.in_range 48 57) s = true -> forallb url_char s = true.
Proof.
  induction s as [|c s IH]; [reflexivity|].
  cbn [forallb]. rewrite !andb_true_iff. intros [Hc Hs].
  split; [|now apply IH].
  unfold url_char, URI.escaped_char, URI.uriUnescaped.
  rewrite Hc. now rewrite !orb_true_r.
Qed.

(** X10: for a valid address and a decimal port, the return URL is made
    only of the characters [escape] writes (letters, digits,
    - _ . ! ~ * ' ( ) and %) and of the delimiters : / ? = &; whatever the
    strings of the address hold, no other character reaches the URL. *)
Theorem return_url_characters configuration a returnUrl :
  valid_address a = true ->
  decimal_port (PORT configuration) = true ->
  snd (createReturnUrl configuration a) = Return returnUrl ->
  forallb url_char returnUrl = true.
Proof.
  intros Hv Hp H.
  destruct (createReturnUrl_valid configuration a Hv)
    as (ea & ec & eu & eh & e & eb & (Sa & Sc & Su & Sh & Sb)
        & _ & _ & _ & _ & _ & _ & Hurl).
  rewrite Hurl in H. cbn [snd] in H. injection H as <-.
  unfold return_prefix, correlation_query.
  repeat first [ rewrite forallb_app | progress cbn [forallb] ].
  rewrite (escaped_url_char ea), (escaped_url_char ec), (escaped_url_char eu),
    (escaped_url_char eh), (escaped_url_char eb) by assumption.
  destruct (truthy (PORT configuration)).
  - cbn [forallb]. rewrite (digits_url_char _ Hp). reflexivity.
  - reflexivity.
Qed.

Lemma return_url_characters_witness :
  forallb url_char
    (lit "http://localhost:3978/approvalComplete?addressId=a1&conversationId=c1&userId=u1&channelId=test&botServiceUrl=http%253A%252F%252Fsvc%252Fx%253Fy%253D1%2526z%253D%252541")
  = true.
Proof.
  apply (return_url_characters default_configuration scenario_address);
    reflexivity.
Defined.

(** X11: [executePayment] does not check the provider's parameters: when
    paymentId and PayerID are absent from the callback, the execute call is
    still issued, once, with an undefined payment id and a request whose
    payer_id is undefined and whose total is still "1.00". *)
Theorem executePayment_without_payment_ids parameters s :
  absent "paymentId" parameters = true ->
  absent "PayerID" parameters = true ->
  URI.Decode (ToString (get "botServiceUrl" parameters)) = Some s ->
  exists env,
    provider_calls (fst (executePayment parameters))
    = [PaypalExecute Undefined (executePaymentJson Undefined) env] /\
    snd (executePayment parameters) = Return tt /\
    prop "payer_id" (executePaymentJson Undefined) = Some Undefined /\
    transaction_total (executePaymentJson Undefined) = Some (Str (lit "1.00")).
Proof.
  intros Hp Hy Hs. rewrite executePayment_run, Hs.
  rewrite (absent_get _ _ Hp), (absent_get _ _ Hy).
  eexists. repeat split.
Qed.

Lemma executePayment_without_payment_ids_witness :
  absent "paymentId" (params request_without_payment) = true /\
  absent "PayerID" (params request_without_payment) = true /\
  exists env,
    provider_calls (fst (executePayment (params request_without_payment)))
    = [PaypalExecute Undefined (executePaymentJson Undefined) env] /\
    snd (executePayment (params request_without_payment)) = Return tt /\
    prop "payer_id" (executePaymentJson Undefined) = Some Undefined /\
    transaction_total (executePaymentJson Undefined) = Some (Str (lit "1.00")).
Proof.
  split; [reflexivity|]. split; [reflexivity|].
  apply (executePayment_without_payment_ids (params request_without_payment)
           (lit "http://svc")); reflexivity.
Defined.
